(** * spotprice: a shallow embedding of [spotprice.py]

    The plugin fetches day-ahead electricity prices once a day, converts
    them to c/kWh including VAT, formats a report and posts it to a list of
    rooms; a chat command runs the same fetch on demand.

    Python values are modelled as follows.
    - [int] is [Z], [float] is the primitive binary64 [float] of Rocq (the
      same IEEE 754 arithmetic, round to nearest even), [str] is [string].
    - A decoded JSON document is the inductive [json]; a [dict] is an
      association list read with first-match [assoc].
    - A [datetime] is its proleptic Gregorian ordinal, its wall-clock
      fields and its UTC offset ([None] for a naive value).
    - Exceptions are the inductive [exn]; code that may raise returns [res];
      code that also talks to the outside world runs in the monad [M], which
      records the outside-visible actions as a trace of [event]s. *)

From Stdlib Require Import ZArith List String Ascii Bool Lia.
From Stdlib Require Import Floats.
From Stdlib Require DecimalString.
Import ListNotations.

Set Warnings "-register-all,-inexact-float".
Local Open Scope string_scope.
Local Open Scope list_scope.
Local Open Scope Z_scope.

(** String concatenation; [++] is kept for lists. *)
Infix "+++" := String.append (right associativity, at level 60).

(** ** JSON values, as [resp.json()] returns them *)

Inductive json : Type :=
| JNull
| JBool (b : bool)
| JInt (z : Z)
| JFloat (f : float)
| JStr (s : string)
| JArr (l : list json)
| JObj (m : list (string * json)).

Fixpoint assoc {A : Type} (k : string) (m : list (string * A)) : option A :=
  match m with
  | [] => None
  | (k', v) :: m' => if String.eqb k k' then Some v else assoc k m'
  end.

(** ** Exceptions *)

Inductive exn : Type :=
| KeyError (key : string)
| TypeError
| IndexError
| OverflowError
| ValueError_price (price : json)     (* "Price is a {price} not a float" *)
| ValueError_isoformat (s : string)   (* raised by datetime.fromisoformat *)
| JSONDecodeError
| ClientError                         (* connection-level failure of the GET *)
| ClientResponseError (status : Z)    (* raised by resp.raise_for_status() *)
| PyException (msg : string) (cause : option exn).

(** The three failure kinds of [fetch_prices], under the names the
    documentation gives them. *)
Definition NoDataError : exn := PyException "No data available yet" None.
Definition HttpError (status : Z) : exn := ClientResponseError status.
Definition MalformedPriceError (cause : exn) : exn :=
  PyException "Failed to parse prices" (Some cause).

Inductive res (A : Type) : Type :=
| Ok (a : A)
| Raise (e : exn).
Arguments Ok {A} a.
Arguments Raise {A} e.

Definition rbind {A B : Type} (r : res A) (k : A -> res B) : res B :=
  match r with
  | Ok a => k a
  | Raise e => Raise e
  end.

Declare Scope res_scope.
Delimit Scope res_scope with res.
Notation "x <- r ;; k" := (rbind r (fun x => k))
  (at level 61, r at next level, right associativity) : res_scope.

(** ** Dates and times (the part of [datetime] the plugin uses) *)

Module Datetime.

Record datetime : Type := mk {
  ordinal : Z;              (* date.toordinal(): 0001-01-01 is day 1 *)
  hour : Z;
  minute : Z;
  second : Z;
  microsecond : Z;
  utcoffset : option Z      (* seconds east of UTC; None for a naive value *)
}.

(** date.max.toordinal(), i.e. 9999-12-31. *)
Definition MAXORDINAL : Z := 3652059.

Definition valid_time (t : datetime) : Prop :=
  0 <= hour t < 24 /\ 0 <= minute t < 60 /\ 0 <= second t < 60
  /\ 0 <= microsecond t < 1000000.

Definition valid (t : datetime) : Prop :=
  1 <= ordinal t <= MAXORDINAL /\ valid_time t.

(** now.replace(hour=, minute=, second=, microsecond=): the date and the
    tzinfo are kept. *)
Definition replace_time (t : datetime) (h m s us : Z) : datetime :=
  mk (ordinal t) h m s us (utcoffset t).

(** Comparison of two values that carry the same tzinfo object: the base
    datetimes are compared field by field. *)
Definition cmp (a b : datetime) : comparison :=
  match ordinal a ?= ordinal b with
  | Eq =>
    match hour a ?= hour b with
    | Eq =>
      match minute a ?= minute b with
      | Eq =>
        match second a ?= second b with
        | Eq => microsecond a ?= microsecond b
        | c => c
        end
      | c => c
      end
    | c => c
    end
  | c => c
  end.

Definition ltb (a b : datetime) : bool :=
  match cmp a b with Lt => true | _ => false end.

(** t + timedelta(days=n): OverflowError outside date.min .. date.max. *)
Definition add_days (t : datetime) (n : Z) : res datetime :=
  let o := ordinal t + n in
  if (1 <=? o) && (o <=? MAXORDINAL)
  then Ok (mk o (hour t) (minute t) (second t) (microsecond t) (utcoffset t))
  else Raise OverflowError.

(** Microseconds since midnight. *)
Definition time_us (t : datetime) : Z :=
  ((hour t * 60 + minute t) * 60 + second t) * 1000000 + microsecond t.

(** (a - b) in microseconds, for two aware values: the difference of the
    wall clocks, less the difference of the UTC offsets (none when both
    carry the same tzinfo). *)
Definition offset_of (t : datetime) : Z :=
  match utcoffset t with
  | Some o => o
  | None => 0
  end.

Definition sub_us (a b : datetime) : Z :=
  (ordinal a - ordinal b) * 86400000000 + (time_us a - time_us b)
  - (offset_of a - offset_of b) * 1000000.

(** *** Calendar arithmetic, after [_ymd2ord] and [_ord2ymd] *)

Definition is_leap (year : Z) : bool :=
  (year mod 4 =? 0) && (negb (year mod 100 =? 0) || (year mod 400 =? 0)).

Definition days_before_year (year : Z) : Z :=
  let y := year - 1 in y * 365 + y / 4 - y / 100 + y / 400.

Definition DAYS_IN_MONTH (month : Z) : Z :=
  match month with
  | 1 => 31 | 2 => 28 | 3 => 31 | 4 => 30 | 5 => 31 | 6 => 30
  | 7 => 31 | 8 => 31 | 9 => 30 | 10 => 31 | 11 => 30 | 12 => 31
  | _ => -1
  end.

Definition DAYS_BEFORE_MONTH (month : Z) : Z :=
  match month with
  | 1 => 0 | 2 => 31 | 3 => 59 | 4 => 90 | 5 => 120 | 6 => 151
  | 7 => 181 | 8 => 212 | 9 => 243 | 10 => 273 | 11 => 304 | 12 => 334
  | _ => -1
  end.

Definition days_before_month (year month : Z) : Z :=
  DAYS_BEFORE_MONTH month
  + (if (2 <? month) && is_leap year then 1 else 0).

Definition ymd2ord (year month day : Z) : Z :=
  days_before_year year + days_before_month year month + day.

Definition ord2ymd (n0 : Z) : Z * Z * Z :=
  let n := n0 - 1 in
  let n400 := n / 146097 in
  let n := n mod 146097 in
  let year := n400 * 400 + 1 in
  let n100 := n / 36524 in
  let n := n mod 36524 in
  let n4 := n / 1461 in
  let n := n mod 1461 in
  let n1 := n / 365 in
  let n := n mod 365 in
  let year := year + n100 * 100 + n4 * 4 + n1 in
  if (n1 =? 4) || (n100 =? 4) then (year - 1, 12, 31)
  else
    let leapyear := (n1 =? 3) && (negb (n4 =? 24) || (n100 =? 3)) in
    let month := Z.shiftr (n + 50) 5 in
    let preceding :=
      DAYS_BEFORE_MONTH month
      + (if (2 <? month) && leapyear then 1 else 0) in
    if n <? preceding
    then
      let month' := month - 1 in
      let preceding' :=
        preceding
        - (DAYS_IN_MONTH month'
           + (if (month' =? 2) && leapyear then 1 else 0)) in
      (year, month', n - preceding' + 1)
    else (year, month, n - preceding + 1).

(** Monday is 0. *)
Definition weekday (t : datetime) : Z := (ordinal t + 6) mod 7.

(** *** strftime, for the two formats the plugin uses *)

Definition digit (n : Z) : ascii := ascii_of_nat (48 + Z.to_nat (n mod 10)).

Definition pad2 (n : Z) : string :=
  String (digit (n / 10)) (String (digit n) "").

Definition pad4 (n : Z) : string :=
  String (digit (n / 1000)) (String (digit (n / 100)) (pad2 n)).

(** strftime("%Y-%m-%d"); %Y is the four-digit year of the documentation. *)
Definition strftime_ymd (t : datetime) : string :=
  let '(y, m, d) := ord2ymd (ordinal t) in
  pad4 y +++ "-" +++ pad2 m +++ "-" +++ pad2 d.

(** strftime("%H:%M") *)
Definition strftime_HM (t : datetime) : string :=
  pad2 (hour t) +++ ":" +++ pad2 (minute t).

(** *** Time zones *)

(** A tzinfo, reduced to what [astimezone] asks of it: the UTC offset in
    seconds in force at a UTC instant (seconds since 0001-01-00T00:00). *)
Record tzinfo : Type := mk_tz {
  tz_name : string;
  tz_utcoffset : Z -> Z
}.

Definition utc : tzinfo := mk_tz "UTC" (fun _ => 0).

Definition in_range (o : Z) : bool := (1 <=? o) && (o <=? MAXORDINAL).

(** ts.astimezone(tz) for a tz that is not ts's own tzinfo object:
    [(ts - offset)] is formed first, then [tz.fromutc] adds tz's offset;
    either step raises OverflowError outside the representable dates.
    [local_offset] stands for the system zone, which a naive value is
    presumed to be in. *)
Definition astimezone (local_offset : datetime -> Z) (tz : tzinfo)
    (t : datetime) : res datetime :=
  let off :=
    match utcoffset t with
    | Some o => o
    | None => local_offset t
    end in
  let utc_s :=
    ordinal t * 86400 + (hour t * 60 + minute t) * 60 + second t - off in
  let tzoff := tz_utcoffset tz utc_s in
  let loc_s := utc_s + tzoff in
  if in_range (utc_s / 86400) && in_range (loc_s / 86400)
  then
    let sod := loc_s mod 86400 in
    Ok (mk (loc_s / 86400) (sod / 3600) (sod mod 3600 / 60) (sod mod 60)
           (microsecond t) (Some tzoff))
  else Raise OverflowError.

End Datetime.
Import Datetime.

(** ** next_announce_time *)

(** The property reads the clock; [now] is the value of
    [datetime.now().astimezone(CET)]. *)
Definition next_announce_time (now : datetime) : res datetime :=
  let announce_time := replace_time now 12 45 0 0 in
  if Datetime.ltb announce_time now
  then add_days announce_time 1
  else Ok announce_time.


(** ** Formatting a float with [:.2f] *)

Module Fmt.

Definition decimal (n : Z) : string :=
  DecimalString.NilZero.string_of_uint (N.to_uint (Z.to_N n)).

(** [m * 2^e * 100], rounded to the nearest integer, ties to even: the
    correctly rounded decimal conversion of CPython. *)
Definition round_half_even_100 (m : positive) (e : Z) : Z :=
  let num := Zpos m * 100 in
  if 0 <=? e then num * 2 ^ e
  else
    let den := 2 ^ (- e) in
    let q := num / den in
    let r := num mod den in
    if (den <? 2 * r) || ((2 * r =? den) && Z.odd q) then q + 1 else q.

Definition format_2f (f : float) : string :=
  match Prim2SF f with
  | S754_nan => "nan"
  | S754_infinity s => if s then "-inf" else "inf"
  | S754_zero s => (if s then "-" else "") +++ "0.00"
  | S754_finite s m e =>
    let q := round_half_even_100 m e in
    (if s then "-" else "") +++ decimal (q / 100) +++ "." +++ pad2 (q mod 100)
  end.

(** "\n".join(lines) *)
Definition newline : string := String (ascii_of_nat 10) "".

Fixpoint join (sep : string) (l : list string) : string :=
  match l with
  | [] => ""
  | [s] => s
  | s :: l' => s +++ sep +++ join sep l'
  end.

End Fmt.
Import Fmt.

(** ** Subscripting and iterating decoded JSON *)

(** [v[k]] for a string key [k]. *)
Definition getitem (v : json) (k : string) : res json :=
  match v with
  | JObj m =>
    match assoc k m with
    | Some x => Ok x
    | None => Raise (KeyError k)
    end
  | _ => Raise TypeError
  end.

Fixpoint chars (s : string) : list json :=
  match s with
  | EmptyString => []
  | String c s' => JStr (String c "") :: chars s'
  end.

(** The items a [for] loop over [v] receives: the elements of a list, the
    keys of a dict, the characters of a str. *)
Definition iter (v : json) : res (list json) :=
  match v with
  | JArr l => Ok l
  | JObj m => Ok (map (fun kv => JStr (fst kv)) m)
  | JStr s => Ok (chars s)
  | _ => Raise TypeError
  end.

(** [l[i]] on a Python list, for an index that is not negative. *)
Definition list_index {A : Type} (l : list A) (i : Z) : res A :=
  match nth_error l (Z.to_nat i) with
  | Some x => Ok x
  | None => Raise IndexError
  end.

(** ** The outside world *)

Definition RoomID := string.

(** What [self.http.get] yields once awaited: the status line and what
    [resp.json()] would return or raise. *)
Record response : Type := mk_response {
  status : Z;
  body : res json
}.

Record world : Type := mk_world {
  http_get : list (string * string) -> res response;
  send_markdown : RoomID -> string -> res unit;
  evt_reply : string -> res unit
}.

(** The libraries the plugin calls into. *)
Record runtime : Type := mk_runtime {
  fromisoformat : string -> option datetime;  (* None: ValueError *)
  local_offset : datetime -> Z;               (* the system zone *)
  pytz_timezone : string -> option tzinfo   (* None: UnknownTimeZoneError *)
}.

(** The delay handed to [sched.run_later]: an [int] of seconds, or the
    float [timedelta.total_seconds()] of a number of microseconds. *)
Inductive delay : Type :=
| Seconds (s : Z)
| TotalSeconds (us : Z).

Inductive event : Type :=
| HttpGet (query : list (string * string))
| LogDebugSchedule (announce_in_us : Z) (now announce_time : datetime)
| LogWarning (msg : string)
| LogError (msg : string)
| LogException (msg : string) (e : exn)
| RunLater (d : delay) (date : string) (attempts : Z)
| SendMarkdown (room : RoomID) (text : string)
| Reply (text : string).

(** ** The monad of effectful code: a trace and a result or an exception *)

Definition M (A : Type) : Type := (list event * res A)%type.

Definition ret {A : Type} (a : A) : M A := ([], Ok a).

Definition bind {A B : Type} (m : M A) (k : A -> M B) : M B :=
  match m with
  | (t1, Ok a) => let '(t2, r) := k a in (t1 ++ t2, r)
  | (t1, Raise e) => (t1, Raise e)
  end.

Definition emit (e : event) : M unit := ([e], Ok tt).

Definition lift {A : Type} (r : res A) : M A := ([], r).

(** The body of a [try] whose handler catches [Exception]: the outcome is
    handed over as a value. *)
Definition attempt {A : Type} (m : M A) : M (res A) := (fst m, Ok (snd m)).

Declare Scope M_scope.
Delimit Scope M_scope with M.
Notation "x <~ m ;; k" := (bind m (fun x => k))
  (at level 61, m at next level, right associativity) : M_scope.
Notation "m ;;; k" := (bind m (fun _ => k))
  (at level 61, right associativity) : M_scope.

Fixpoint for_each {A : Type} (l : list A) (f : A -> M unit) : M unit :=
  match l with
  | [] => ret tt
  | x :: l' => (f x ;;; for_each l' f)%M
  end.

(** ** Configuration and plugin state *)

Record Config : Type := mk_config {
  cfg_delivery_area : string;
  cfg_currency : string;
  cfg_timezone : string;
  cfg_post_to_rooms : list RoomID;
  cfg_day_names : list string;
  cfg_command : string;
  cfg_vat : float        (* an int here acts as the float of its value *)
}.

Record SpotPriceBot : Type := mk_bot {
  delivery_area : string;
  currency : string;
  timezone : tzinfo;
  rooms : list RoomID;
  day_names : list string;
  vat_multiplier : float;
  command_name : string
}.

Section Plugin.

Variable rt : runtime.

Definition on_external_config_update (config : Config) : M SpotPriceBot :=
  (tz <~ match pytz_timezone rt (cfg_timezone config) with
         | Some tz => ret tz
         | None =>
           emit (LogWarning
                   ("Unknown timezone " +++ cfg_timezone config
                    +++ ", using UTC")) ;;;
           ret Datetime.utc
         end ;;
   ret (mk_bot (cfg_delivery_area config) (cfg_currency config) tz
          (cfg_post_to_rooms config) (cfg_day_names config)
          (1 + cfg_vat config)%float (cfg_command config)))%M.

(** *** _schedule_poll

    The clock is read twice: [now1] inside [next_announce_time], [now2]
    on the next line. *)
Definition _schedule_poll (now1 now2 : datetime) : M unit :=
  (announce_time <~ lift (next_announce_time now1) ;;
   let announce_in := sub_us announce_time now2 in
   emit (LogDebugSchedule announce_in now2 announce_time) ;;;
   next <~ lift (add_days announce_time 1) ;;
   emit (RunLater (TotalSeconds announce_in) (strftime_ymd next) 0))%M.

Definition start (config : Config) (now1 now2 : datetime) : M SpotPriceBot :=
  (_schedule_poll now1 now2 ;;; on_external_config_update config)%M.

(** *** fetch_prices *)

(** [resp.raise_for_status()] of aiohttp: raises from status 400 on. *)
Definition raise_for_status (resp : response) : res unit :=
  if 400 <=? status resp
  then Raise (ClientResponseError (status resp))
  else Ok tt.

(** [price = item["entryPerArea"]["FI"]] *)
Definition entry_price (item : json) : res json :=
  (epa <- getitem item "entryPerArea" ;;
   getitem epa "FI")%res.

Definition parse_isoformat (v : json) : res datetime :=
  match v with
  | JStr s =>
    match fromisoformat rt s with
    | Some t => Ok t
    | None => Raise (ValueError_isoformat s)
    end
  | _ => Raise TypeError
  end.

(** One turn of the loop body: the tuple appended to [data]. *)
Definition parse_entry (self : SpotPriceBot) (item : json)
    : res (datetime * float) :=
  (price <- entry_price item ;;
   match price with
   | JFloat p =>
     ds <- getitem item "deliveryStart" ;;
     ts <- parse_isoformat ds ;;
     Ok (ts, (p * vat_multiplier self / 10)%float)
   | _ => Raise (ValueError_price price)
   end)%res.

Fixpoint parse_loop (self : SpotPriceBot) (data : list (datetime * float))
    (items : list json) : res (list (datetime * float)) :=
  match items with
  | [] => Ok data
  | item :: items' =>
    (e <- parse_entry self item ;;
     parse_loop self (data ++ [e]) items')%res
  end.

(** The body of the [try]. *)
Definition parse_prices (self : SpotPriceBot) (resp : response)
    : res (list (datetime * float)) :=
  (resp_data <- body resp ;;
   entries <- getitem resp_data "multiAreaEntries" ;;
   items <- iter entries ;;
   parse_loop self [] items)%res.

Definition fetch_query (self : SpotPriceBot) (date : string)
    : list (string * string) :=
  [("date", date); ("market", "DayAhead");
   ("deliveryArea", delivery_area self); ("currency", currency self)].

Definition fetch_prices (self : SpotPriceBot) (w : world) (date : string)
    : M (list (datetime * float)) :=
  (emit (HttpGet (fetch_query self date)) ;;;
   resp <~ lift (http_get w (fetch_query self date)) ;;
   lift (raise_for_status resp) ;;;
   if status resp =? 204 then lift (Raise NoDataError)
   else
     lift (match parse_prices self resp with
           | Ok data => Ok data
           | Raise e => Raise (MalformedPriceError e)
           end))%M.

(** *** _format_prices *)

Definition format_line (self : SpotPriceBot) (point : datetime * float)
    : res string :=
  (local <- astimezone (local_offset rt) (timezone self) (fst point) ;;
   Ok (strftime_HM local +++ " " +++ format_2f (snd point) +++ " c/kWh"))%res.

Fixpoint format_loop (self : SpotPriceBot) (lines : list string)
    (data : list (datetime * float)) : res (list string) :=
  match data with
  | [] => Ok lines
  | point :: data' =>
    (line <- format_line self point ;;
     format_loop self (lines ++ [line]) data')%res
  end.

Definition format_header (self : SpotPriceBot)
    (data : list (datetime * float)) : res string :=
  (p13 <- list_index data 12 ;;
   name <- list_index (day_names self) (weekday (fst p13)) ;;
   Ok (name +++ " " +++ strftime_ymd (fst p13)))%res.

Definition format_lines (self : SpotPriceBot)
    (data : list (datetime * float)) : res (list string) :=
  (header <- format_header self data ;;
   lines <- format_loop self [header; "```"] data ;;
   Ok (lines ++ ["```"]))%res.

Definition _format_prices (self : SpotPriceBot)
    (data : list (datetime * float)) : res string :=
  (lines <- format_lines self data ;;
   Ok (join newline lines))%res.

(** *** _poll *)

Definition send (w : world) (room : RoomID) (text : string) : M unit :=
  (emit (SendMarkdown room text) ;;; lift (send_markdown w room text))%M.

Definition _poll (self : SpotPriceBot) (w : world) (date : string)
    (attempts : Z) : M unit :=
  if 24 <=? attempts
  then emit (LogError
               "Failed to fetch spot prices 24 times in a row, giving up")
  else
    (r <~ attempt (fetch_prices self w date) ;;
     match r with
     | Raise e =>
       emit (LogException
               "Failed to fetch spot prices, retrying in 5 minutes" e) ;;;
       emit (RunLater (Seconds 300) date (attempts + 1))
     | Ok data =>
       formatted_prices <~ lift (_format_prices self data) ;;
       for_each (rooms self) (fun room_id => send w room_id formatted_prices)
     end)%M.

(** *** poll_manually *)

Definition reply (w : world) (text : string) : M unit :=
  (emit (Reply text) ;;; lift (evt_reply w text))%M.

(** [not date] holds of [None] and of the empty string. *)
Definition falsy (date : option string) : bool :=
  match date with
  | None => true
  | Some s => String.eqb s ""
  end.

Definition poll_manually (self : SpotPriceBot) (w : world) (now : datetime)
    (date : option string) : M unit :=
  (date <~ (if falsy date
            then t <~ lift (next_announce_time now) ;; ret (strftime_ymd t)
            else ret (match date with Some d => d | None => "" end)) ;;
   r <~ attempt (fetch_prices self w date) ;;
   match r with
   | Raise e =>
     emit (LogException "Failed to fetch spot prices" e) ;;;
     reply w "Failed to fetch prices"
   | Ok prices =>
     text <~ lift (_format_prices self prices) ;;
     reply w text
   end)%M.

(** *** The timers

    [sched.run_later] keeps the armed coroutines; firing one runs [_poll]
    against the world as it is at that attempt. An exception that leaves
    [_poll] ends that task only. *)
Record timer : Type := mk_timer {
  timer_delay : delay;
  timer_date : string;
  timer_attempts : Z
}.

Fixpoint armed (t : list event) : list timer :=
  match t with
  | [] => []
  | RunLater d date attempts :: t' => mk_timer d date attempts :: armed t'
  | _ :: t' => armed t'
  end.

Fixpoint run_timers (fuel : nat) (self : SpotPriceBot) (ws : Z -> world)
    (pending : list timer) : list event * list timer :=
  match fuel with
  | O => ([], pending)
  | S fuel' =>
    match pending with
    | [] => ([], [])
    | mk_timer _ date attempts :: rest =>
      let t := fst (_poll self (ws attempts) date attempts) in
      let '(t', p') := run_timers fuel' self ws (rest ++ armed t) in
      (t ++ t', p')
    end
  end.

Fixpoint count_gets (t : list event) : nat :=
  match t with
  | [] => O
  | HttpGet _ :: t' => S (count_gets t')
  | _ :: t' => count_gets t'
  end.

End Plugin.

(** ** A concrete runtime, configuration and response, for the examples *)

Module Sample.

Definition digit_val (c : ascii) : option Z :=
  let n := Z.of_nat (nat_of_ascii c) in
  if (48 <=? n) && (n <=? 57) then Some (n - 48) else None.

Definition num2 (a b : ascii) : option Z :=
  match digit_val a, digit_val b with
  | Some x, Some y => Some (10 * x + y)
  | _, _ => None
  end.

(** [datetime.fromisoformat] on the one shape the price API sends,
    [YYYY-MM-DDTHH:MM:SSZ]; everything else is refused here. *)
Definition fromisoformat_utc (s : string) : option datetime :=
  match s with
  | String y1 (String y2 (String y3 (String y4 (String "-"
    (String m1 (String m2 (String "-" (String d1 (String d2 (String "T"
    (String h1 (String h2 (String ":" (String i1 (String i2 (String ":"
    (String s1 (String s2 (String "Z" EmptyString))))))))))))))))))) =>
    match num2 y1 y2, num2 y3 y4, num2 m1 m2, num2 d1 d2,
          num2 h1 h2, num2 i1 i2, num2 s1 s2 with
    | Some ya, Some yb, Some mo, Some d, Some h, Some mi, Some se =>
      let y := 100 * ya + yb in
      if (1 <=? y) && (1 <=? mo) && (mo <=? 12) && (1 <=? d)
         && (d <=? DAYS_IN_MONTH mo
                   + (if (mo =? 2) && is_leap y then 1 else 0))
         && (h <? 24) && (mi <? 60) && (se <? 60)
      then Some (Datetime.mk (ymd2ord y mo d) h mi se 0 (Some 0))
      else None
    | _, _, _, _, _, _, _ => None
    end
  | _ => None
  end.

(** Finnish winter time, two hours east of UTC. *)
Definition helsinki_winter : tzinfo :=
  mk_tz "Europe/Helsinki" (fun _ => 7200).

Definition rt : runtime :=
  mk_runtime fromisoformat_utc (fun _ => 0)
    (fun name =>
       if String.eqb name "Europe/Helsinki" then Some helsinki_winter
       else if String.eqb name "UTC" then Some Datetime.utc
       else None).

Definition week : list string :=
  ["Monday"; "Tuesday"; "Wednesday"; "Thursday"; "Friday"; "Saturday";
   "Sunday"].

Definition config (area : string) : Config :=
  mk_config area "EUR" "Europe/Helsinki" ["!a:example.org"; "!b:example.org"]
    week "spotprice" 0.25%float.

Definition bot (area : string) : SpotPriceBot :=
  mk_bot area "EUR" helsinki_winter ["!a:example.org"; "!b:example.org"]
    week (1 + 0.25)%float "spotprice".

Definition item (area : string) (day hour : Z) (price : json) : json :=
  JObj [("deliveryStart",
         JStr ("2024-01-" +++ pad2 day +++ "T" +++ pad2 hour +++ ":00:00Z"));
        ("entryPerArea", JObj [(area, price)])].

(** The 24 hours of the Finnish day 2024-01-15, from 2024-01-14T22:00Z. *)
Definition stamps : list (Z * Z) :=
  [(14, 22); (14, 23)]
  ++ map (fun h => (15, Z.of_nat h)) (seq 0 22).

Definition entries (area : string) (price : json) : list json :=
  map (fun dh => item area (fst dh) (snd dh) price) stamps.

Definition ok_response (area : string) (price : json) : response :=
  mk_response 200 (Ok (JObj [("multiAreaEntries", JArr (entries area price))])).

(** One entry, for 11:00 UTC of 2024-01-15, at 100 EUR/MWh. *)
Definition single : response :=
  mk_response 200
    (Ok (JObj [("multiAreaEntries",
                JArr [item "FI" 15 11 (JFloat 100)])])).

Definition no_data : response := mk_response 204 (Raise JSONDecodeError).

Definition world_of (resp : response) : world :=
  mk_world (fun _ => Ok resp) (fun _ _ => Ok tt) (fun _ => Ok tt).

(** The series [fetch_prices] returns for [ok_response] at 100 EUR/MWh,
    and the same instants on the Finnish wall clock. *)
Definition series : list (datetime * float) :=
  map (fun dh =>
         (Datetime.mk (ymd2ord 2024 1 (fst dh)) (snd dh) 0 0 0 (Some 0),
          12.5%float))
      stamps.


(** The report [_format_prices] makes of [series]. *)
Definition report : string :=
  match _format_prices rt (bot "FI") series with
  | Ok text => text
  | Raise _ => ""
  end.

Definition noon : datetime := Datetime.mk (ymd2ord 2024 1 14) 12 0 0 0 (Some 3600).

End Sample.


(** ** Vocabulary of the properties *)

(** 12:45:00.000000 as microseconds since midnight. *)
Definition ANNOUNCE_US : Z := ((12 * 60 + 45) * 60 + 0) * 1000000 + 0.

Definition today_at_1245 (now : datetime) : datetime :=
  Datetime.mk (ordinal now) 12 45 0 0 (utcoffset now).

Definition tomorrow_at_1245 (now : datetime) : datetime :=
  Datetime.mk (ordinal now + 1) 12 45 0 0 (utcoffset now).


Definition morning : datetime := Datetime.mk 738900 9 30 15 250000 (Some 3600).
Definition evening : datetime := Datetime.mk 738900 18 0 0 1 (Some 3600).


(** What [fetch_prices] returns or raises, read off the outcome of the GET. *)
Definition fetch_outcome (rt : runtime) (self : SpotPriceBot)
    (r : res response) : res (list (datetime * float)) :=
  match r with
  | Raise e => Raise e
  | Ok resp =>
    if 400 <=? status resp then Raise (HttpError (status resp))
    else if status resp =? 204 then Raise NoDataError
    else
      match parse_prices rt self resp with
      | Ok data => Ok data
      | Raise e => Raise (MalformedPriceError e)
      end
  end.

Definition RETRY_MSG : string :=
  "Failed to fetch spot prices, retrying in 5 minutes".

Definition GIVE_UP_MSG : string :=
  "Failed to fetch spot prices 24 times in a row, giving up".

(** [map] for a function that may raise: the first exception wins. *)
Fixpoint map_res {A B : Type} (f : A -> res B) (l : list A) : res (list B) :=
  match l with
  | [] => Ok []
  | x :: l' =>
    (y <- f x ;;
     ys <- map_res f l' ;;
     Ok (y :: ys))%res
  end.

(** An entry that parses: an object whose [entryPerArea] is an object
    holding a float under [area], and whose [deliveryStart] is a string
    that [fromisoformat] accepts. *)
Definition entry_ok (rt : runtime) (area : string) (item : json) : bool :=
  match item with
  | JObj m =>
    match assoc "entryPerArea" m, assoc "deliveryStart" m with
    | Some (JObj prices), Some (JStr s) =>
      match assoc area prices, fromisoformat rt s with
      | Some (JFloat _), Some _ => true
      | _, _ => false
      end
    | _, _ => false
    end
  | _ => false
  end.

(** A body that parses: it decodes to an object whose [multiAreaEntries]
    can be iterated and yields only entries that parse. *)
Definition body_ok (rt : runtime) (area : string) (resp : response) : bool :=
  match body resp with
  | Ok (JObj m) =>
    match assoc "multiAreaEntries" m with
    | Some entries =>
      match iter entries with
      | Ok items => forallb (entry_ok rt area) items
      | Raise _ => false
      end
    | None => false
    end
  | _ => false
  end.

(** The entry the documentation promises to accept: the required fields
    are present and the price under [area] is a number. *)
Definition numeric (v : json) : bool :=
  match v with
  | JInt _ | JFloat _ => true
  | _ => false
  end.

Definition entry_as_documented (area : string) (item : json) : bool :=
  match item with
  | JObj m =>
    match assoc "entryPerArea" m, assoc "deliveryStart" m with
    | Some (JObj prices), Some _ =>
      match assoc area prices with
      | Some price => numeric price
      | None => false
      end
    | _, _ => false
    end
  | _ => false
  end.

Definition body_as_documented (area : string) (resp : response) : bool :=
  match body resp with
  | Ok (JObj m) =>
    match assoc "multiAreaEntries" m with
    | Some (JArr items) => forallb (entry_as_documented area) items
    | _ => false
    end
  | _ => false
  end.

(** ** Vocabulary of the report *)






Definition FAILED_REPLY : string := "Failed to fetch prices".


Definition MANUAL_MSG : string := "Failed to fetch spot prices".

(** Case analysis on every [match] in sight. *)
Ltac split_matches :=
  repeat (simpl in *; try congruence; try (eexists; reflexivity);
          match goal with
          | |- context [match ?x with _ => _ end] => destruct x eqn:?
          | H : context [match ?x with _ => _ end] |- _ => destruct x eqn:?
          end).

(** ** Vocabulary of the further properties *)

(** The deliveries and the replies a trace holds, in order. *)
Fixpoint sends (t : list event) : list (RoomID * string) :=
  match t with
  | [] => []
  | SendMarkdown room text :: t' => (room, text) :: sends t'
  | _ :: t' => sends t'
  end.

Fixpoint replies (t : list event) : list string :=
  match t with
  | [] => []
  | Reply text :: t' => text :: replies t'
  | _ :: t' => replies t'
  end.

(** The success class of HTTP statuses, 200 to 299. *)
Definition success_status (status : Z) : bool :=
  (200 <=? status) && (status <? 300).

(** One day, in microseconds. *)
Definition DAY_US : Z := 86400000000.

Module Cases.

(** No connection: the GET itself raises. *)
Definition offline : world :=
  mk_world (fun _ => Raise ClientError) (fun _ _ => Ok tt) (fun _ => Ok tt).

(** Prices arrive, but the second room refuses the message. *)
Definition second_room_down : world :=
  mk_world (fun _ => Ok (Sample.ok_response "FI" (JFloat 100)))
    (fun room _ =>
       if String.eqb room "!b:example.org" then Raise ClientError else Ok tt)
    (fun _ => Ok tt).

(** Two good entries, then one without a price map, then a good one. *)
Definition mixed : response :=
  mk_response 200
    (Ok (JObj [("multiAreaEntries",
                JArr [Sample.item "FI" 15 10 (JFloat 100);
                      Sample.item "FI" 15 11 (JFloat 100);
                      JObj [("deliveryStart", JStr "2024-01-15T12:00:00Z")];
                      Sample.item "FI" 15 13 (JInt 7)])])).

(** A redirection status the client hands back, with a body that parses. *)
Definition not_modified : response :=
  mk_response 304
    (Ok (JObj [("multiAreaEntries",
                JArr (Sample.entries "FI" (JFloat 100)))])).

(** Nothing published for the first two attempts, then the prices. *)
Definition published_at_third (attempt : Z) : world :=
  if attempt <? 2 then Sample.world_of Sample.no_data
  else Sample.world_of (Sample.ok_response "FI" (JFloat 100)).

(** A bot configured with no day names at all. *)
Definition bot_without_names : SpotPriceBot :=
  mk_bot "FI" "EUR" Sample.helsinki_winter ["!a:example.org"] []
    (1 + 0.25)%float "spotprice".

End Cases.
(** * Properties *)

(** ** next_announce_time *)

Lemma ltb_replace_time (now : datetime) :
  valid_time now ->
  Datetime.ltb (replace_time now 12 45 0 0) now = (ANNOUNCE_US <? time_us now).
Proof.
  intros (Hh & Hm & Hs & Hu).
  unfold Datetime.ltb, Datetime.cmp, replace_time, time_us, ANNOUNCE_US.
  cbn [ordinal hour minute second microsecond].
  rewrite Z.compare_refl.
  destruct (Z.compare_spec 12 (hour now));
    [destruct (Z.compare_spec 45 (minute now));
     [destruct (Z.compare_spec 0 (second now));
      [destruct (Z.compare_spec 0 (microsecond now))|..]|..]|..];
    symmetry; first [apply Z.ltb_lt; lia | apply Z.ltb_ge; lia].
Qed.




(** ** fetch_prices: the status line *)

Section Fetch.

Variable rt : runtime.

Lemma fetch_prices_unfold (self : SpotPriceBot) (w : world) (date : string) :
  fetch_prices rt self w date
  = ([HttpGet (fetch_query self date)],
     fetch_outcome rt self (http_get w (fetch_query self date))).
Proof.
  unfold fetch_prices, fetch_outcome, bind, emit, lift, raise_for_status,
    HttpError.
  destruct (http_get w (fetch_query self date)) as [resp|e]; [|reflexivity].
  destruct (400 <=? status resp); [reflexivity|].
  destruct (status resp =? 204); reflexivity.
Qed.

Lemma fetch_prices_204 (self : SpotPriceBot) (w : world) (date : string)
    (resp : response) :
  http_get w (fetch_query self date) = Ok resp ->
  status resp = 204 ->
  snd (fetch_prices rt self w date) = Raise NoDataError.
Proof.
  intros Hget H204. rewrite fetch_prices_unfold, Hget.
  unfold fetch_outcome, snd. rewrite H204. reflexivity.
Qed.

Lemma fetch_prices_parses (self : SpotPriceBot) (w : world) (date : string)
    (resp : response) :
  http_get w (fetch_query self date) = Ok resp ->
  status resp < 400 -> status resp <> 204 ->
  snd (fetch_prices rt self w date)
  = match parse_prices rt self resp with
    | Ok data => Ok data
    | Raise e => Raise (MalformedPriceError e)
    end.
Proof.
  intros Hget Hlo Hne. rewrite fetch_prices_unfold, Hget.
  unfold fetch_outcome, snd.
  destruct (Z.leb_spec 400 (status resp)); [lia|].
  destruct (Z.eqb_spec (status resp) 204); [lia|]. reflexivity.
Qed.

(** C7, amended: with the GET answered by [resp], fetch_prices raises
    NoDataError exactly when the status is 204, raises HttpError exactly
    when the status is one that raise_for_status rejects (400 and above),
    and for every other status, the success statuses other than 204 and
    any 1xx or 3xx status that reaches the caller alike, its outcome is
    that of parsing the body. *)
Theorem fetch_prices_by_status (self : SpotPriceBot) (w : world)
    (date : string) (resp : response) :
  http_get w (fetch_query self date) = Ok resp ->
  (snd (fetch_prices rt self w date) = Raise NoDataError
   <-> status resp = 204)
  /\ ((exists s, snd (fetch_prices rt self w date) = Raise (HttpError s))
      <-> 400 <= status resp)
  /\ (status resp < 400 -> status resp <> 204 ->
      snd (fetch_prices rt self w date)
      = match parse_prices rt self resp with
        | Ok data => Ok data
        | Raise e => Raise (MalformedPriceError e)
        end).
Proof.
  intros Hget. rewrite fetch_prices_unfold, Hget.
  unfold fetch_outcome, snd.
  destruct (Z.leb_spec 400 (status resp)) as [Hhi|Hlo].
  - split; [|split].
    + split; [discriminate | lia].
    + split; [lia | eexists; reflexivity].
    + lia.
  - destruct (Z.eqb_spec (status resp) 204) as [H204|Hnot].
    + split; [|split].
      * split; auto.
      * split; [intros [s Hs]; discriminate | lia].
      * congruence.
    + split; [|split].
      * split; [|congruence].
        destruct (parse_prices rt self resp); discriminate.
      * split; [|lia].
        intros [s Hs]. destruct (parse_prices rt self resp); discriminate.
      * reflexivity.
Qed.

End Fetch.

Lemma fetch_prices_by_status_witness :
  http_get (Sample.world_of Sample.no_data)
    (fetch_query (Sample.bot "FI") "2024-01-15") = Ok Sample.no_data
  /\ snd (fetch_prices Sample.rt (Sample.bot "FI")
            (Sample.world_of Sample.no_data) "2024-01-15")
     = Raise NoDataError.
Proof.
  split; [reflexivity|].
  destruct (fetch_prices_by_status Sample.rt (Sample.bot "FI")
              (Sample.world_of Sample.no_data) "2024-01-15" Sample.no_data
              eq_refl) as [[_ H204] _].
  apply H204. reflexivity.
Defined.

(** C7, as stated, fails: 304 is not a success status and is not 204, yet
    fetch_prices raises no HttpError for it; raise_for_status lets it
    through and the body is parsed, here into the full series. *)
Lemma fetch_prices_parses_a_304 :
  success_status (status Cases.not_modified) = false
  /\ status Cases.not_modified <> 204
  /\ snd (fetch_prices Sample.rt (Sample.bot "FI")
            (Sample.world_of Cases.not_modified) "2024-01-15")
     = Ok Sample.series
  /\ snd (fetch_prices Sample.rt (Sample.bot "FI")
            (Sample.world_of Cases.not_modified) "2024-01-15")
     <> Raise (HttpError (status Cases.not_modified)).
Proof.
  split; [reflexivity|]. split; [discriminate|].
  split; [reflexivity | discriminate].
Qed.

(** ** _poll: retry and give up *)

Section Poll.

Variable rt : runtime.

Lemma poll_capped (self : SpotPriceBot) (w : world) (date : string)
    (attempts : Z) :
  24 <= attempts ->
  _poll rt self w date attempts = ([LogError GIVE_UP_MSG], Ok tt).
Proof.
  intros Hcap. unfold _poll.
  destruct (Z.leb_spec 24 attempts); [reflexivity | lia].
Qed.

Lemma poll_failure (self : SpotPriceBot) (w : world) (date : string)
    (attempts : Z) (e : exn) :
  attempts < 24 ->
  snd (fetch_prices rt self w date) = Raise e ->
  _poll rt self w date attempts
  = ([HttpGet (fetch_query self date); LogException RETRY_MSG e;
      RunLater (Seconds 300) date (attempts + 1)], Ok tt).
Proof.
  intros Hlt Hfail. unfold _poll.
  destruct (Z.leb_spec 24 attempts); [lia|].
  rewrite fetch_prices_unfold in *. simpl in Hfail.
  unfold attempt, bind, emit. simpl. rewrite Hfail. reflexivity.
Qed.

(** C5: below the cap, whatever exception fetch_prices raises, _poll logs
    it and arms one timer of 300 seconds for the same date with the
    attempt count plus one, and does nothing else; a 204 answer is one
    such failure, raised as NoDataError. *)
Theorem poll_failure_retries_in_300s (self : SpotPriceBot) (w : world)
    (date : string) (attempts : Z) :
  attempts < 24 ->
  (forall e, snd (fetch_prices rt self w date) = Raise e ->
     _poll rt self w date attempts
     = ([HttpGet (fetch_query self date); LogException RETRY_MSG e;
         RunLater (Seconds 300) date (attempts + 1)], Ok tt))
  /\ (forall resp, http_get w (fetch_query self date) = Ok resp ->
        status resp = 204 ->
        _poll rt self w date attempts
        = ([HttpGet (fetch_query self date);
            LogException RETRY_MSG NoDataError;
            RunLater (Seconds 300) date (attempts + 1)], Ok tt)).
Proof.
  intros Hlt. split.
  - intros e He. apply poll_failure; assumption.
  - intros resp Hget H204. apply poll_failure; [assumption|].
    apply (fetch_prices_204 rt self w date resp Hget H204).
Qed.

Lemma run_timers_idle (fuel : nat) (self : SpotPriceBot) (ws : Z -> world) :
  run_timers rt fuel self ws [] = ([], []).
Proof. destruct fuel; reflexivity. Qed.

(** The retry chain from attempt [24 - n] on, when every fetch fails. *)
Lemma retry_chain (self : SpotPriceBot) (ws : Z -> world) (date : string) :
  (forall a, 0 <= a < 24 ->
     exists e, snd (fetch_prices rt self (ws a) date) = Raise e) ->
  forall (n : nat) (fuel : nat) (d : delay),
    (n <= 24)%nat -> (n < fuel)%nat ->
    exists t,
      run_timers rt fuel self ws [mk_timer d date (24 - Z.of_nat n)]
      = (t ++ [LogError GIVE_UP_MSG], [])
      /\ count_gets t = n /\ List.length (armed t) = n.
Proof.
  intros Hfail. induction n as [|n IH]; intros fuel d Hn Hfuel.
  - destruct fuel as [|fuel]; [lia|]. exists []. cbn [run_timers].
    rewrite poll_capped by lia. simpl. rewrite run_timers_idle.
    repeat split.
  - destruct fuel as [|fuel]; [lia|].
    remember (24 - Z.of_nat (S n)) as a eqn:Ea.
    destruct (Hfail a) as [e He]; [lia|].
    destruct (IH fuel (Seconds 300)) as (t & Hrun & Hcount & Harmed);
      [lia | lia |].
    cbn [run_timers]. rewrite (poll_failure _ _ _ _ e) by (lia || exact He).
    cbn [fst armed app].
    replace (a + 1) with (24 - Z.of_nat n) by lia.
    rewrite Hrun.
    eexists (_ :: _ :: _ :: t). split; [reflexivity|].
    simpl. split; congruence.
Qed.

(** C4: when the fetch fails at every attempt, the chain of timers armed
    for one date performs 24 fetches and no more: the run that starts at
    attempt 0 ends, whatever the fuel from 25 on, with the terminal error
    logged and no timer pending; and _poll at the cap (24 or beyond) logs
    the terminal error without fetching or arming anything. *)
Theorem poll_gives_up_after_24 (self : SpotPriceBot) (ws : Z -> world)
    (date : string) (d : delay) :
  (forall a, 0 <= a < 24 ->
     exists e, snd (fetch_prices rt self (ws a) date) = Raise e) ->
  (forall w attempts, 24 <= attempts ->
     _poll rt self w date attempts = ([LogError GIVE_UP_MSG], Ok tt))
  /\ (forall fuel, (25 <= fuel)%nat ->
        exists t,
          run_timers rt fuel self ws [mk_timer d date 0]
          = (t ++ [LogError GIVE_UP_MSG], [])
          /\ count_gets (t ++ [LogError GIVE_UP_MSG]) = 24%nat
          /\ List.length (armed (t ++ [LogError GIVE_UP_MSG])) = 24%nat).
Proof.
  intros Hfail. split.
  - intros w attempts. apply poll_capped.
  - intros fuel Hfuel.
    destruct (retry_chain self ws date Hfail 24 fuel d)
      as (t & Hrun & Hcount & Harmed); [lia | lia |].
    exists t. split; [exact Hrun|].
    assert (Hg : forall t', count_gets (t' ++ [LogError GIVE_UP_MSG])
                            = count_gets t').
    { induction t' as [|ev t' IHt]; [reflexivity|].
      destruct ev; simpl; rewrite IHt; reflexivity. }
    assert (Ha : forall t', armed (t' ++ [LogError GIVE_UP_MSG]) = armed t').
    { induction t' as [|ev t' IHt]; [reflexivity|].
      destruct ev; simpl; rewrite IHt; reflexivity. }
    rewrite Hg, Ha. split; assumption.
Qed.

End Poll.

Lemma poll_failure_retries_in_300s_witness :
  _poll Sample.rt (Sample.bot "FI") (Sample.world_of Sample.no_data)
    "2024-01-15" 3
  = ([HttpGet (fetch_query (Sample.bot "FI") "2024-01-15");
      LogException RETRY_MSG NoDataError;
      RunLater (Seconds 300) "2024-01-15" 4], Ok tt).
Proof.
  apply (poll_failure_retries_in_300s Sample.rt (Sample.bot "FI")
           (Sample.world_of Sample.no_data) "2024-01-15" 3);
    [lia | reflexivity].
Defined.

Lemma poll_gives_up_after_24_witness :
  exists t,
    run_timers Sample.rt 25 (Sample.bot "FI")
      (fun _ => Sample.world_of Sample.no_data)
      [mk_timer (TotalSeconds 0) "2024-01-15" 0]
    = (t ++ [LogError GIVE_UP_MSG], [])
    /\ count_gets (t ++ [LogError GIVE_UP_MSG]) = 24%nat
    /\ List.length (armed (t ++ [LogError GIVE_UP_MSG])) = 24%nat.
Proof.
  apply (poll_gives_up_after_24 Sample.rt (Sample.bot "FI")
           (fun _ => Sample.world_of Sample.no_data) "2024-01-15"
           (TotalSeconds 0)).
  - intros a _. exists NoDataError. reflexivity.
  - apply Nat.le_refl.
Defined.

(** ** fetch_prices: parsing and conversion *)

Section Parse.

Variable rt : runtime.

Lemma parse_loop_map_res (self : SpotPriceBot) (items : list json) :
  forall data,
    parse_loop rt self data items
    = (es <- map_res (parse_entry rt self) items ;; Ok (data ++ es))%res.
Proof.
  induction items as [|item items IH]; intros data; simpl.
  - rewrite app_nil_r. reflexivity.
  - destruct (parse_entry rt self item) as [e|x]; simpl; [|reflexivity].
    rewrite IH. destruct (map_res (parse_entry rt self) items); simpl;
      [rewrite <- app_assoc|]; reflexivity.
Qed.

Lemma map_res_Forall2 {A B : Type} (f : A -> res B) (l : list A) :
  forall ys, map_res f l = Ok ys -> Forall2 (fun x y => f x = Ok y) l ys.
Proof.
  induction l as [|x l IH]; intros ys H; simpl in H.
  - injection H as <-. constructor.
  - destruct (f x) as [y|e] eqn:Ex; simpl in H; [|discriminate].
    destruct (map_res f l) as [ys'|e]; simpl in H; [|discriminate].
    injection H as <-. constructor; auto.
Qed.

(** What a successful turn of the loop has read and computed. *)
Lemma parse_entry_inv (self : SpotPriceBot) (item : json)
    (point : datetime * float) :
  parse_entry rt self item = Ok point ->
  exists p ds,
    entry_price item = Ok (JFloat p)
    /\ getitem item "deliveryStart" = Ok ds
    /\ parse_isoformat rt ds = Ok (fst point)
    /\ snd point = (p * vat_multiplier self / 10)%float.
Proof.
  unfold parse_entry. intros H.
  destruct (entry_price item) as [price|e]; simpl in H; [|discriminate].
  destruct price; try discriminate.
  destruct (getitem item "deliveryStart") as [ds|e]; simpl in H;
    [|discriminate].
  destruct (parse_isoformat rt ds) as [ts|e] eqn:Ets; simpl in H;
    [|discriminate].
  injection H as <-. exists f, ds. simpl. rewrite Ets. auto.
Qed.

Lemma config_vat_multiplier (config : Config) (self : SpotPriceBot)
    (t : list event) :
  on_external_config_update rt config = (t, Ok self) ->
  vat_multiplier self = (1 + cfg_vat config)%float.
Proof.
  unfold on_external_config_update.
  destruct (pytz_timezone rt (cfg_timezone config)); simpl;
    intros H; inversion H; reflexivity.
Qed.

Lemma fetch_prices_ok_inv (self : SpotPriceBot) (w : world) (date : string)
    (data : list (datetime * float)) :
  snd (fetch_prices rt self w date) = Ok data ->
  exists resp,
    http_get w (fetch_query self date) = Ok resp
    /\ status resp < 400 /\ status resp <> 204
    /\ parse_prices rt self resp = Ok data.
Proof.
  rewrite fetch_prices_unfold. unfold fetch_outcome, snd.
  destruct (http_get w (fetch_query self date)) as [resp|e]; [|discriminate].
  destruct (Z.leb_spec 400 (status resp)) as [|Hlo]; [discriminate|].
  destruct (Z.eqb_spec (status resp) 204) as [|Hne]; [discriminate|].
  destruct (parse_prices rt self resp) as [d|e] eqn:Hparse; [|discriminate].
  intros Hd; injection Hd as <-. exists resp. repeat split; auto.
Qed.

Lemma parse_prices_ok_inv (self : SpotPriceBot) (resp : response)
    (data : list (datetime * float)) :
  parse_prices rt self resp = Ok data ->
  exists resp_data entries items,
    body resp = Ok resp_data
    /\ getitem resp_data "multiAreaEntries" = Ok entries
    /\ iter entries = Ok items
    /\ map_res (parse_entry rt self) items = Ok data.
Proof.
  unfold parse_prices. intros H.
  destruct (body resp) as [resp_data|e] eqn:Hbody; simpl in H;
    [|discriminate].
  destruct (getitem resp_data "multiAreaEntries") as [entries|e] eqn:Hent;
    simpl in H; [|discriminate].
  destruct (iter entries) as [items|e] eqn:Hiter; simpl in H;
    [|discriminate].
  rewrite parse_loop_map_res in H.
  destruct (map_res (parse_entry rt self) items) as [es|e] eqn:Hmap;
    simpl in H; [|discriminate].
  injection H as <-. exists resp_data, entries, items. auto.
Qed.

(** C6: with the multiplier set from the [vat] configuration value, every
    point of a returned series carries [p * (1 + vat) / 10], in binary64
    arithmetic, where [p] is the float read from the entry at the same
    position of the response; this holds for every [vat], so for every
    [vat >= 0]. *)
Theorem fetch_prices_converts_with_vat (config : Config)
    (self : SpotPriceBot) (t0 : list event) (w : world) (date : string)
    (data : list (datetime * float)) :
  on_external_config_update rt config = (t0, Ok self) ->
  snd (fetch_prices rt self w date) = Ok data ->
  exists resp resp_data entries items,
    http_get w (fetch_query self date) = Ok resp
    /\ body resp = Ok resp_data
    /\ getitem resp_data "multiAreaEntries" = Ok entries
    /\ iter entries = Ok items
    /\ Forall2
         (fun item point =>
            exists p,
              entry_price item = Ok (JFloat p)
              /\ snd point = (p * (1 + cfg_vat config) / 10)%float)
         items data.
Proof.
  intros Hcfg Hfetch.
  apply fetch_prices_ok_inv in Hfetch as (resp & Hget & _ & _ & Hparse).
  apply parse_prices_ok_inv in Hparse
    as (resp_data & entries & items & Hbody & Hentries & Hiter & Hmap).
  exists resp, resp_data, entries, items. repeat (split; [assumption|]).
  apply map_res_Forall2 in Hmap.
  revert Hmap. apply Forall2_impl. intros item point Hitem.
  apply parse_entry_inv in Hitem as (p & ds & Hp & _ & _ & Hconv).
  exists p. split; [exact Hp|].
  rewrite Hconv, (config_vat_multiplier config self t0 Hcfg). reflexivity.
Qed.

End Parse.

Lemma fetch_prices_converts_with_vat_witness :
  exists resp resp_data entries items,
    http_get (Sample.world_of Sample.single)
      (fetch_query (Sample.bot "FI") "2024-01-15") = Ok resp
    /\ body resp = Ok resp_data
    /\ getitem resp_data "multiAreaEntries" = Ok entries
    /\ iter entries = Ok items
    /\ Forall2
         (fun item point =>
            exists p,
              entry_price item = Ok (JFloat p)
              /\ snd point
                 = (p * (1 + cfg_vat (Sample.config "FI")) / 10)%float)
         items
         [(Datetime.mk 738900 11 0 0 0 (Some 0), 12.5%float)].
Proof.
  apply (fetch_prices_converts_with_vat Sample.rt (Sample.config "FI")
           (Sample.bot "FI") []
           (Sample.world_of Sample.single) "2024-01-15");
    reflexivity.
Defined.

(** ** fetch_prices: which bodies parse *)

Section Malformed.

Variable rt : runtime.

Lemma parse_entry_ok (self : SpotPriceBot) (item : json) :
  entry_ok rt "FI" item = true ->
  exists point, parse_entry rt self item = Ok point.
Proof.
  unfold entry_ok, parse_entry, entry_price, getitem, parse_isoformat, rbind.
  intros H. split_matches.
Qed.

Lemma parse_entry_not_ok (self : SpotPriceBot) (item : json) :
  entry_ok rt "FI" item = false ->
  exists e, parse_entry rt self item = Raise e.
Proof.
  unfold entry_ok, parse_entry, entry_price, getitem, parse_isoformat, rbind.
  intros H. split_matches.
Qed.

Lemma map_res_parse_ok (self : SpotPriceBot) (items : list json) :
  forallb (entry_ok rt "FI") items = true ->
  exists data, map_res (parse_entry rt self) items = Ok data.
Proof.
  induction items as [|item items IH]; simpl; intros H.
  - eexists; reflexivity.
  - apply andb_true_iff in H as [Hitem Hrest].
    destruct (parse_entry_ok self item Hitem) as [point ->].
    destruct (IH Hrest) as [data ->]. eexists; reflexivity.
Qed.

Lemma map_res_parse_not_ok (self : SpotPriceBot) (items : list json) :
  forallb (entry_ok rt "FI") items = false ->
  exists e, map_res (parse_entry rt self) items = Raise e.
Proof.
  induction items as [|item items IH]; simpl; intros H; [discriminate|].
  destruct (entry_ok rt "FI" item) eqn:Hitem; simpl in H.
  - destruct (parse_entry_ok self item Hitem) as [point ->].
    destruct (IH H) as [e ->]. eexists; reflexivity.
  - destruct (parse_entry_not_ok self item Hitem) as [e ->].
    eexists; reflexivity.
Qed.

Lemma parse_prices_ok (self : SpotPriceBot) (resp : response) :
  body_ok rt "FI" resp = true ->
  exists data, parse_prices rt self resp = Ok data.
Proof.
  unfold body_ok, parse_prices. intros H.
  destruct (body resp) as [[| | | | | |m]|]; try discriminate. simpl.
  destruct (assoc "multiAreaEntries" m) as [entries|]; [|discriminate].
  simpl. destruct (iter entries) as [items|]; [|discriminate]. simpl.
  rewrite parse_loop_map_res.
  destruct (map_res_parse_ok self items H) as [data ->].
  eexists; reflexivity.
Qed.

Lemma parse_prices_not_ok (self : SpotPriceBot) (resp : response) :
  body_ok rt "FI" resp = false ->
  exists e, parse_prices rt self resp = Raise e.
Proof.
  unfold body_ok, parse_prices. intros H.
  destruct (body resp) as [[| | | | | |m]|]; simpl;
    try (eexists; reflexivity).
  destruct (assoc "multiAreaEntries" m) as [entries|]; simpl;
    [|eexists; reflexivity].
  destruct (iter entries) as [items|]; simpl; [|eexists; reflexivity].
  rewrite parse_loop_map_res.
  destruct (map_res_parse_not_ok self items H) as [e ->].
  eexists; reflexivity.
Qed.

(** C9, amended: once the status line lets the body through, and with
    the configured area being the one the parser reads, fetch_prices
    raises MalformedPriceError exactly when the body does not parse:
    it cannot be decoded, or a required field (multiAreaEntries,
    entryPerArea, the area key, deliveryStart) is absent or of the wrong
    shape, or the price is not a float, or deliveryStart is not an ISO
    timestamp. Every body whose entries all carry a float price and a
    timestamp is accepted, and the exception raised while parsing is kept
    as the cause. *)
Theorem fetch_prices_malformed_iff (self : SpotPriceBot) (w : world)
    (date : string) (resp : response) :
  delivery_area self = "FI" ->
  http_get w (fetch_query self date) = Ok resp ->
  status resp < 400 -> status resp <> 204 ->
  ((exists cause,
      snd (fetch_prices rt self w date) = Raise (MalformedPriceError cause))
   <-> body_ok rt (delivery_area self) resp = false)
  /\ ((exists data, snd (fetch_prices rt self w date) = Ok data)
      <-> body_ok rt (delivery_area self) resp = true)
  /\ (forall e, parse_prices rt self resp = Raise e ->
        snd (fetch_prices rt self w date) = Raise (MalformedPriceError e)).
Proof.
  intros Harea Hget Hlo Hne. rewrite Harea.
  rewrite (fetch_prices_parses rt self w date resp Hget Hlo Hne).
  destruct (body_ok rt "FI" resp) eqn:Hok.
  - destruct (parse_prices_ok self resp Hok) as [data ->].
    split; [|split].
    + split; [intros [c Hc]; discriminate | discriminate].
    + split; [reflexivity | eexists; reflexivity].
    + discriminate.
  - destruct (parse_prices_not_ok self resp Hok) as [e ->].
    split; [|split].
    + split; [reflexivity | eexists; reflexivity].
    + split; [intros [d Hd]; discriminate | discriminate].
    + intros e' He'. injection He' as <-. reflexivity.
Qed.

End Malformed.

Lemma fetch_prices_malformed_iff_witness :
  exists data,
    snd (fetch_prices Sample.rt (Sample.bot "FI")
           (Sample.world_of (Sample.ok_response "FI" (JFloat 100)))
           "2024-01-15") = Ok data.
Proof.
  destruct (fetch_prices_malformed_iff Sample.rt (Sample.bot "FI")
              (Sample.world_of (Sample.ok_response "FI" (JFloat 100)))
              "2024-01-15" (Sample.ok_response "FI" (JFloat 100))
              eq_refl eq_refl)
    as (_ & [_ Hok] & _).
  - reflexivity.
  - discriminate.
  - apply Hok. reflexivity.
Defined.

(** C9, as stated, fails: a body with every required field present and an
    integer price, which is numeric, is refused. *)
Lemma fetch_prices_rejects_integer_price :
  body_as_documented "FI" (Sample.ok_response "FI" (JInt 100)) = true
  /\ snd (fetch_prices Sample.rt (Sample.bot "FI")
            (Sample.world_of (Sample.ok_response "FI" (JInt 100)))
            "2024-01-15")
     = Raise (MalformedPriceError (ValueError_price (JInt 100))).
Proof. split; reflexivity. Qed.

(** C2: the parser reads the key "FI" whatever area is configured. With
    SE3 configured, a body priced for SE3 alone is refused with the
    KeyError for "FI" as cause, and a body priced for FI alone, which lacks
    the configured area, is accepted in full. *)
Theorem fetch_prices_reads_FI_whatever_the_area :
  delivery_area (Sample.bot "SE3") = "SE3"
  /\ snd (fetch_prices Sample.rt (Sample.bot "SE3")
            (Sample.world_of (Sample.ok_response "SE3" (JFloat 100)))
            "2024-01-15")
     = Raise (MalformedPriceError (KeyError "FI"))
  /\ exists data,
       snd (fetch_prices Sample.rt (Sample.bot "SE3")
              (Sample.world_of (Sample.ok_response "FI" (JFloat 100)))
              "2024-01-15") = Ok data
       /\ List.length data = 24%nat
       /\ Forall (fun point => snd point = 12.5%float) data.
Proof.
  split; [reflexivity|]. split; [reflexivity|].
  eexists. split; [reflexivity|]. split; [reflexivity|].
  repeat constructor.
Qed.

(** ** _format_prices *)





Section Format.

Variable rt : runtime.

Lemma format_loop_map_res (self : SpotPriceBot)
    (data : list (datetime * float)) :
  forall lines,
    format_loop rt self lines data
    = (ls <- map_res (format_line rt self) data ;; Ok (lines ++ ls))%res.
Proof.
  induction data as [|point data IH]; intros lines; simpl.
  - rewrite app_nil_r. reflexivity.
  - destruct (format_line rt self point) as [line|e]; simpl; [|reflexivity].
    rewrite IH. destruct (map_res (format_line rt self) data); simpl;
      [rewrite <- app_assoc|]; reflexivity.
Qed.



End Format.


(** ** poll_manually *)


Section Command.

Variable rt : runtime.


End Command.


(** ** _poll: a cycle that succeeds *)

Section Cycle.

Variable rt : runtime.

Lemma for_each_send (w : world) (text : string) (l : list RoomID) :
  (forall room, In room l -> send_markdown w room text = Ok tt) ->
  for_each l (fun room_id => send w room_id text)
  = (map (fun room => SendMarkdown room text) l, Ok tt).
Proof.
  induction l as [|room l IH]; intros Hsend; [reflexivity|].
  cbn [for_each map]. unfold send at 1, bind, emit, lift.
  rewrite (Hsend room) by (left; reflexivity).
  rewrite IH by (intros r Hr; apply Hsend; right; exact Hr).
  reflexivity.
Qed.

Lemma armed_sends (text : string) (l : list RoomID) :
  armed (map (fun room => SendMarkdown room text) l) = [].
Proof. induction l; simpl; auto. Qed.

(** C1, amended: a cycle whose fetch returns a series that formats, and
    whose deliveries go through, sends the report to every configured
    room, in the order of the list, and arms no timer; the cycle that has
    reached the cap arms none either. *)
Theorem poll_success_delivers_and_arms_nothing (self : SpotPriceBot)
    (w : world) (date : string) (attempts : Z)
    (data : list (datetime * float)) (text : string) :
  attempts < 24 ->
  snd (fetch_prices rt self w date) = Ok data ->
  _format_prices rt self data = Ok text ->
  (forall room, In room (rooms self) -> send_markdown w room text = Ok tt) ->
  _poll rt self w date attempts
  = (HttpGet (fetch_query self date)
     :: map (fun room => SendMarkdown room text) (rooms self), Ok tt)
  /\ armed (fst (_poll rt self w date attempts)) = []
  /\ (forall w' attempts', 24 <= attempts' ->
        armed (fst (_poll rt self w' date attempts')) = []).
Proof.
  intros Hlt Hfetch Hfmt Hsend.
  assert (Hpoll : _poll rt self w date attempts
                  = (HttpGet (fetch_query self date)
                     :: map (fun room => SendMarkdown room text)
                          (rooms self), Ok tt)).
  { unfold _poll. destruct (Z.leb_spec 24 attempts); [lia|].
    rewrite fetch_prices_unfold in *. cbn [snd] in Hfetch.
    unfold attempt, bind, lift. cbn [fst snd]. rewrite Hfetch, Hfmt.
    rewrite (for_each_send w text (rooms self) Hsend). reflexivity. }
  split; [exact Hpoll|]. split.
  - rewrite Hpoll. cbn [fst armed]. apply armed_sends.
  - intros w' attempts' Hcap. rewrite poll_capped by exact Hcap.
    reflexivity.
Qed.

(** The one place a timer for the announcement is armed. *)
Lemma schedule_poll_arms_once (now1 now2 announce_time next : datetime) :
  next_announce_time now1 = Ok announce_time ->
  add_days announce_time 1 = Ok next ->
  _schedule_poll now1 now2
  = ([LogDebugSchedule (sub_us announce_time now2) now2 announce_time;
      RunLater (TotalSeconds (sub_us announce_time now2))
        (strftime_ymd next) 0], Ok tt).
Proof.
  intros Hnext Hadd. unfold _schedule_poll, bind, lift, emit.
  rewrite Hnext, Hadd. reflexivity.
Qed.

End Cycle.

Lemma poll_success_delivers_and_arms_nothing_witness :
  _poll Sample.rt (Sample.bot "FI")
    (Sample.world_of (Sample.ok_response "FI" (JFloat 100))) "2024-01-15" 0
  = ([HttpGet (fetch_query (Sample.bot "FI") "2024-01-15");
      SendMarkdown "!a:example.org" Sample.report;
      SendMarkdown "!b:example.org" Sample.report], Ok tt).
Proof.
  apply (poll_success_delivers_and_arms_nothing Sample.rt (Sample.bot "FI")
           (Sample.world_of (Sample.ok_response "FI" (JFloat 100)))
           "2024-01-15" 0 Sample.series Sample.report).
  - lia.
  - reflexivity.
  - reflexivity.
  - intros room _. reflexivity.
Defined.

(** C1, as stated, fails: a cycle that succeeds delivers the report to both
    rooms and ends with no timer armed, so nothing is scheduled for the
    following day. *)
Lemma poll_success_leaves_no_timer :
  _poll Sample.rt (Sample.bot "FI")
    (Sample.world_of (Sample.ok_response "FI" (JFloat 100))) "2024-01-15" 0
  = ([HttpGet (fetch_query (Sample.bot "FI") "2024-01-15");
      SendMarkdown "!a:example.org" Sample.report;
      SendMarkdown "!b:example.org" Sample.report], Ok tt)
  /\ armed
       (fst (_poll Sample.rt (Sample.bot "FI")
               (Sample.world_of (Sample.ok_response "FI" (JFloat 100)))
               "2024-01-15" 0)) = []
  /\ run_timers Sample.rt 1 (Sample.bot "FI")
       (fun _ => Sample.world_of (Sample.ok_response "FI" (JFloat 100)))
       [mk_timer (TotalSeconds 0) "2024-01-15" 0]
     = ([HttpGet (fetch_query (Sample.bot "FI") "2024-01-15");
         SendMarkdown "!a:example.org" Sample.report;
         SendMarkdown "!b:example.org" Sample.report], []).
Proof. repeat split. Qed.

(** * Further properties *)

(** ** next_announce_time and _schedule_poll *)

Lemma time_us_bounds (t : datetime) :
  valid_time t -> 0 <= time_us t < DAY_US.
Proof.
  intros (Hh & Hm & Hs & Hu). unfold time_us, DAY_US. lia.
Qed.

Lemma next_announce_time_cases (now : datetime) :
  valid now -> ordinal now < MAXORDINAL ->
  next_announce_time now
  = Ok (if ANNOUNCE_US <? time_us now
        then tomorrow_at_1245 now else today_at_1245 now).
Proof.
  intros [Hord Hv] Hmax. unfold next_announce_time.
  rewrite (ltb_replace_time now Hv).
  destruct (ANNOUNCE_US <? time_us now); [|reflexivity].
  unfold add_days, replace_time, tomorrow_at_1245.
  cbn [ordinal hour minute second microsecond utcoffset].
  replace ((1 <=? ordinal now + 1) && (ordinal now + 1 <=? MAXORDINAL))
    with true; [reflexivity|].
  symmetry. apply andb_true_iff. split; apply Z.leb_le; lia.
Qed.

(** X1: the announce time is never in the past and less than a day ahead:
    it is on the 12:45:00 mark, in the zone of [now], between 0 and 24
    hours (excluded) after [now]. *)
Theorem next_announce_time_within_a_day (now : datetime) :
  valid now -> ordinal now < MAXORDINAL ->
  exists t,
    next_announce_time now = Ok t
    /\ time_us t = ANNOUNCE_US
    /\ utcoffset t = utcoffset now
    /\ 0 <= sub_us t now < DAY_US.
Proof.
  intros Hv Hmax. rewrite (next_announce_time_cases now Hv Hmax).
  destruct Hv as [Hord Hv]. pose proof (time_us_bounds now Hv) as Hb.
  eexists. split; [reflexivity|].
  destruct (Z.ltb_spec ANNOUNCE_US (time_us now)) as [Hlate|Hearly];
    (split; [reflexivity|]); (split; [reflexivity|]);
    unfold sub_us, offset_of, tomorrow_at_1245, today_at_1245;
    cbn [ordinal utcoffset];
    change (time_us (Datetime.mk _ 12 45 0 0 _)) with ANNOUNCE_US;
    unfold ANNOUNCE_US, DAY_US in *; lia.
Qed.

Lemma next_announce_time_within_a_day_witness :
  exists t,
    next_announce_time evening = Ok t
    /\ time_us t = ANNOUNCE_US
    /\ utcoffset t = utcoffset evening
    /\ 0 <= sub_us t evening < DAY_US.
Proof.
  apply (next_announce_time_within_a_day evening);
    vm_compute; intuition congruence.
Defined.

(** X2: the announce time is a fixed point: asked again at the very
    instant it returned, the property answers that same instant, so a poll
    scheduled from there is due at once. *)
Theorem next_announce_time_stable (now t : datetime) :
  next_announce_time now = Ok t -> next_announce_time t = Ok t.
Proof.
  unfold next_announce_time. intros H.
  assert (Ht : replace_time t 12 45 0 0 = t).
  { destruct (Datetime.ltb (replace_time now 12 45 0 0) now).
    - unfold add_days in H. cbn [ordinal replace_time] in H.
      destruct ((1 <=? ordinal now + 1) && (ordinal now + 1 <=? MAXORDINAL));
        [|discriminate].
      injection H as <-. reflexivity.
    - injection H as <-. reflexivity. }
  rewrite Ht.
  assert (Hirr : Datetime.ltb t t = false).
  { unfold Datetime.ltb, Datetime.cmp. rewrite !Z.compare_refl. reflexivity. }
  rewrite Hirr. reflexivity.
Qed.

Lemma next_announce_time_stable_witness :
  next_announce_time (tomorrow_at_1245 evening)
  = Ok (tomorrow_at_1245 evening).
Proof.
  apply (next_announce_time_stable evening). reflexivity.
Defined.

(** X3: _schedule_poll arms one timer, for attempt 0, due at the announce
    time, and the date it will fetch is the day after the announce time:
    tomorrow when called up to 12:45:00, the day after tomorrow when called
    later. *)
Theorem schedule_poll_fetches_day_after (now1 now2 : datetime) :
  valid now1 -> ordinal now1 + 2 <= MAXORDINAL ->
  exists announce_time next,
    next_announce_time now1 = Ok announce_time
    /\ _schedule_poll now1 now2
       = ([LogDebugSchedule (sub_us announce_time now2) now2 announce_time;
           RunLater (TotalSeconds (sub_us announce_time now2))
             (strftime_ymd next) 0], Ok tt)
    /\ ordinal next = ordinal announce_time + 1
    /\ ordinal next
       = ordinal now1 + (if time_us now1 <=? ANNOUNCE_US then 1 else 2).
Proof.
  intros Hv Hmax.
  assert (Hnext := next_announce_time_cases now1 Hv ltac:(lia)).
  destruct Hv as [Hord Hv].
  set (a := if ANNOUNCE_US <? time_us now1
            then tomorrow_at_1245 now1 else today_at_1245 now1) in *.
  assert (Ha : ordinal a
               = ordinal now1 + (if time_us now1 <=? ANNOUNCE_US
                                 then 0 else 1)).
  { unfold a. destruct (Z.ltb_spec ANNOUNCE_US (time_us now1));
      destruct (Z.leb_spec (time_us now1) ANNOUNCE_US); try lia;
      cbn [tomorrow_at_1245 today_at_1245 ordinal]; lia. }
  assert (Hadd : add_days a 1
                 = Ok (Datetime.mk (ordinal a + 1) (hour a) (minute a)
                         (second a) (microsecond a) (utcoffset a))).
  { unfold add_days.
    replace ((1 <=? ordinal a + 1) && (ordinal a + 1 <=? MAXORDINAL))
      with true; [reflexivity|].
    symmetry. apply andb_true_iff.
    destruct (time_us now1 <=? ANNOUNCE_US); split; apply Z.leb_le; lia. }
  eexists a, _. split; [exact Hnext|]. split.
  - exact (schedule_poll_arms_once now1 now2 a _ Hnext Hadd).
  - cbn [ordinal]. split; [reflexivity|].
    rewrite Ha. destruct (time_us now1 <=? ANNOUNCE_US); lia.
Qed.

Lemma schedule_poll_fetches_day_after_witness :
  armed (fst (_schedule_poll Sample.noon Sample.noon))
  = [mk_timer (TotalSeconds 2700000000) "2024-01-15" 0]
  /\ armed (fst (_schedule_poll evening evening))
     = [mk_timer (TotalSeconds 67499999999) "2024-01-17" 0].
Proof.
  split.
  - destruct (schedule_poll_fetches_day_after Sample.noon Sample.noon)
      as (a & next & Ha & Hrun & Hnext & Hday);
      [vm_compute; intuition congruence | vm_compute; congruence |].
    rewrite Hrun. cbn [fst armed]. unfold strftime_ymd. rewrite Hday.
    vm_compute in Ha. injection Ha as <-. reflexivity.
  - destruct (schedule_poll_fetches_day_after evening evening)
      as (a & next & Ha & Hrun & Hnext & Hday);
      [vm_compute; intuition congruence | vm_compute; congruence |].
    rewrite Hrun. cbn [fst armed]. unfold strftime_ymd. rewrite Hday.
    vm_compute in Ha. injection Ha as <-. reflexivity.
Defined.

(** ** on_external_config_update and start *)

Section Startup.

Variable rt : runtime.

(** X4: a configuration update never raises. A zone name pytz knows is
    taken with nothing logged; an unknown one is replaced by UTC with one
    warning; the rooms, the day names and the area are taken over in every
    case. *)
Theorem config_update_falls_back_to_utc (config : Config) :
  exists t self,
    on_external_config_update rt config = (t, Ok self)
    /\ (forall tz, pytz_timezone rt (cfg_timezone config) = Some tz ->
          timezone self = tz /\ t = [])
    /\ (pytz_timezone rt (cfg_timezone config) = None ->
          timezone self = Datetime.utc
          /\ t = [LogWarning ("Unknown timezone " +++ cfg_timezone config
                              +++ ", using UTC")])
    /\ rooms self = cfg_post_to_rooms config
    /\ day_names self = cfg_day_names config
    /\ delivery_area self = cfg_delivery_area config
    /\ currency self = cfg_currency config.
Proof.
  unfold on_external_config_update.
  destruct (pytz_timezone rt (cfg_timezone config)) as [tz|];
    do 2 eexists; (split; [reflexivity|]); cbn [timezone rooms day_names
      delivery_area currency app];
    repeat split; try congruence; intros; congruence.
Qed.

(** X5: start arms the timer first and configures second: when
    _schedule_poll goes through, the trace of start is its trace followed
    by that of the update, with exactly one timer armed, for attempt 0; when
    _schedule_poll raises, start raises the same and the update is never
    run. *)
Theorem start_arms_one_timer_then_configures (config : Config)
    (now1 now2 : datetime) :
  (forall ts, _schedule_poll now1 now2 = (ts, Ok tt) ->
     exists tc self d date,
       on_external_config_update rt config = (tc, Ok self)
       /\ start rt config now1 now2 = (ts ++ tc, Ok self)
       /\ armed (ts ++ tc) = [mk_timer d date 0])
  /\ (forall ts e, _schedule_poll now1 now2 = (ts, Raise e) ->
        start rt config now1 now2 = (ts, Raise e)).
Proof.
  split.
  - intros ts Hs. unfold start, bind. rewrite Hs.
    unfold _schedule_poll, bind, lift, emit in Hs.
    destruct (next_announce_time now1) as [a|e]; [|discriminate].
    destruct (add_days a 1) as [next|e]; [|discriminate].
    injection Hs as <-.
    unfold on_external_config_update.
    destruct (pytz_timezone rt (cfg_timezone config)) as [tz|];
      do 4 eexists; repeat split.
  - intros ts e Hs. unfold start, bind. rewrite Hs. reflexivity.
Qed.

End Startup.

(** ** fetch_prices: what is raised, what is returned *)

Section FetchMore.

Variable rt : runtime.

(** X6: an exception of the GET itself leaves fetch_prices as it is, not
    wrapped as a parse failure, and _poll below the cap answers it like any
    other failure, with a retry in 300 seconds. *)
Theorem fetch_prices_transport_error_unwrapped (self : SpotPriceBot)
    (w : world) (date : string) (e : exn) :
  http_get w (fetch_query self date) = Raise e ->
  fetch_prices rt self w date = ([HttpGet (fetch_query self date)], Raise e)
  /\ (forall attempts, attempts < 24 ->
        _poll rt self w date attempts
        = ([HttpGet (fetch_query self date); LogException RETRY_MSG e;
            RunLater (Seconds 300) date (attempts + 1)], Ok tt)).
Proof.
  intros Hget.
  assert (Hfetch : fetch_prices rt self w date
                   = ([HttpGet (fetch_query self date)], Raise e)).
  { rewrite fetch_prices_unfold, Hget. reflexivity. }
  split; [exact Hfetch|].
  intros attempts Hlt. apply poll_failure; [exact Hlt|].
  rewrite Hfetch. reflexivity.
Qed.

(** X7: a returned series follows the response entry by entry: it has as
    many points as the response has entries, and the timestamp of each
    point is what fromisoformat makes of the deliveryStart string of the
    entry at the same position; nothing is dropped or reordered. *)
Theorem fetch_prices_keeps_order (self : SpotPriceBot) (w : world)
    (date : string) (data : list (datetime * float)) :
  snd (fetch_prices rt self w date) = Ok data ->
  exists resp resp_data entries items,
    http_get w (fetch_query self date) = Ok resp
    /\ body resp = Ok resp_data
    /\ getitem resp_data "multiAreaEntries" = Ok entries
    /\ iter entries = Ok items
    /\ List.length data = List.length items
    /\ Forall2
         (fun item point =>
            exists s,
              getitem item "deliveryStart" = Ok (JStr s)
              /\ fromisoformat rt s = Some (fst point))
         items data.
Proof.
  intros Hfetch.
  apply fetch_prices_ok_inv in Hfetch as (resp & Hget & _ & _ & Hparse).
  apply parse_prices_ok_inv in Hparse
    as (resp_data & entries & items & Hbody & Hentries & Hiter & Hmap).
  exists resp, resp_data, entries, items. repeat (split; [assumption|]).
  apply map_res_Forall2 in Hmap. split.
  - symmetry. exact (Forall2_length Hmap).
  - revert Hmap. apply Forall2_impl. intros item point Hitem.
    apply parse_entry_inv in Hitem as (p & ds & _ & Hds & Hts & _).
    unfold parse_isoformat in Hts. destruct ds; try discriminate.
    destruct (fromisoformat rt s) as [ts|] eqn:Hiso; [|discriminate].
    injection Hts as ->. exists s. split; [exact Hds | exact Hiso].
Qed.

Lemma map_res_first_failure {A B : Type} (f : A -> res B)
    (good : list A) (bad : A) (rest : list A) (e : exn) :
  Forall (fun x => exists y, f x = Ok y) good ->
  f bad = Raise e ->
  map_res f (good ++ bad :: rest) = Raise e.
Proof.
  intros Hgood Hbad. induction Hgood as [|x good [y Hy] _ IH]; simpl.
  - rewrite Hbad. reflexivity.
  - rewrite Hy. simpl. rewrite IH. reflexivity.
Qed.

(** X8: parsing stops at the first entry that fails: when the entries
    before it parse, the exception that entry raises is the cause carried
    by MalformedPriceError, whatever comes after it, and no partial series
    is returned. *)
Theorem fetch_prices_first_bad_entry (self : SpotPriceBot) (w : world)
    (date : string) (resp : response) (resp_data entries : json)
    (good : list json) (bad : json) (rest : list json) (e : exn) :
  http_get w (fetch_query self date) = Ok resp ->
  status resp < 400 -> status resp <> 204 ->
  body resp = Ok resp_data ->
  getitem resp_data "multiAreaEntries" = Ok entries ->
  iter entries = Ok (good ++ bad :: rest) ->
  Forall (fun item => exists point, parse_entry rt self item = Ok point) good ->
  parse_entry rt self bad = Raise e ->
  snd (fetch_prices rt self w date) = Raise (MalformedPriceError e).
Proof.
  intros Hget Hlo Hne Hbody Hentries Hiter Hgood Hbad.
  rewrite (fetch_prices_parses rt self w date resp Hget Hlo Hne).
  unfold parse_prices. rewrite Hbody. simpl. rewrite Hentries. simpl.
  rewrite Hiter. simpl. rewrite parse_loop_map_res.
  rewrite (map_res_first_failure _ good bad rest e Hgood Hbad). reflexivity.
Qed.

End FetchMore.

Lemma fetch_prices_transport_error_unwrapped_witness :
  fetch_prices Sample.rt (Sample.bot "FI") Cases.offline "2024-01-15"
  = ([HttpGet (fetch_query (Sample.bot "FI") "2024-01-15")],
     Raise ClientError).
Proof.
  apply (fetch_prices_transport_error_unwrapped Sample.rt (Sample.bot "FI")
           Cases.offline "2024-01-15" ClientError).
  reflexivity.
Defined.

Lemma fetch_prices_keeps_order_witness :
  exists resp resp_data entries items,
    http_get (Sample.world_of (Sample.ok_response "FI" (JFloat 100)))
      (fetch_query (Sample.bot "FI") "2024-01-15") = Ok resp
    /\ body resp = Ok resp_data
    /\ getitem resp_data "multiAreaEntries" = Ok entries
    /\ iter entries = Ok items
    /\ List.length Sample.series = List.length items
    /\ Forall2
         (fun item point =>
            exists s,
              getitem item "deliveryStart" = Ok (JStr s)
              /\ fromisoformat Sample.rt s = Some (fst point))
         items Sample.series.
Proof.
  apply (fetch_prices_keeps_order Sample.rt (Sample.bot "FI")
           (Sample.world_of (Sample.ok_response "FI" (JFloat 100)))
           "2024-01-15" Sample.series).
  reflexivity.
Defined.

Lemma fetch_prices_first_bad_entry_witness :
  snd (fetch_prices Sample.rt (Sample.bot "FI") (Sample.world_of Cases.mixed)
         "2024-01-15")
  = Raise (MalformedPriceError (KeyError "entryPerArea")).
Proof.
  apply (fetch_prices_first_bad_entry Sample.rt (Sample.bot "FI")
           (Sample.world_of Cases.mixed) "2024-01-15" Cases.mixed
           (JObj [("multiAreaEntries",
                   JArr [Sample.item "FI" 15 10 (JFloat 100);
                         Sample.item "FI" 15 11 (JFloat 100);
                         JObj [("deliveryStart",
                                JStr "2024-01-15T12:00:00Z")];
                         Sample.item "FI" 15 13 (JInt 7)])])
           (JArr [Sample.item "FI" 15 10 (JFloat 100);
                  Sample.item "FI" 15 11 (JFloat 100);
                  JObj [("deliveryStart", JStr "2024-01-15T12:00:00Z")];
                  Sample.item "FI" 15 13 (JInt 7)])
           [Sample.item "FI" 15 10 (JFloat 100);
            Sample.item "FI" 15 11 (JFloat 100)]
           (JObj [("deliveryStart", JStr "2024-01-15T12:00:00Z")])
           [Sample.item "FI" 15 13 (JInt 7)]);
    try reflexivity; try lia; try discriminate.
  repeat constructor; eexists; reflexivity.
Defined.

Lemma start_arms_one_timer_then_configures_witness :
  exists tc self d date,
    on_external_config_update Sample.rt (Sample.config "FI") = (tc, Ok self)
    /\ start Sample.rt (Sample.config "FI") Sample.noon Sample.noon
       = (fst (_schedule_poll Sample.noon Sample.noon) ++ tc, Ok self)
    /\ armed (fst (_schedule_poll Sample.noon Sample.noon) ++ tc)
       = [mk_timer d date 0].
Proof.
  apply (start_arms_one_timer_then_configures Sample.rt (Sample.config "FI")
           Sample.noon Sample.noon).
  reflexivity.
Defined.

(** ** _format_prices: the series it refuses *)

Section FormatMore.

Variable rt : runtime.

(** X9: a series of twelve points or fewer, the empty one included, is not
    formatted: _format_prices raises IndexError, whatever the points and
    the configuration are. *)
Theorem format_prices_short_series (self : SpotPriceBot)
    (data : list (datetime * float)) :
  (List.length data <= 12)%nat ->
  _format_prices rt self data = Raise IndexError.
Proof.
  intros Hlen. unfold _format_prices, format_lines, format_header, list_index.
  change (Z.to_nat 12) with 12%nat.
  rewrite (proj2 (nth_error_None data 12) Hlen). reflexivity.
Qed.

(** X10: when the list of day names has no entry at the weekday index of
    the 13th point, _format_prices raises IndexError before any timestamp
    is converted. *)
Theorem format_prices_missing_day_name (self : SpotPriceBot)
    (data : list (datetime * float)) (point : datetime * float) :
  nth_error data 12 = Some point ->
  (List.length (day_names self) <= Z.to_nat (weekday (fst point)))%nat ->
  _format_prices rt self data = Raise IndexError.
Proof.
  intros H13 Hnames.
  unfold _format_prices, format_lines, format_header, list_index.
  change (Z.to_nat 12) with 12%nat. rewrite H13. simpl.
  rewrite (proj2 (nth_error_None (day_names self) _) Hnames). reflexivity.
Qed.

(** What a report is made from: the converse of the layout. *)
Lemma map_res_length {A B : Type} (f : A -> res B) (l : list A)
    (ys : list B) :
  map_res f l = Ok ys -> List.length ys = List.length l.
Proof.
  intros H. apply map_res_Forall2 in H. symmetry. exact (Forall2_length H).
Qed.

(** X11: a report exists only for a series that has a 13th point, a day
    name at that point's weekday index and timestamps that all convert to
    the display zone; it then has three lines more than the series has
    points. *)
Theorem format_prices_needs_full_series (self : SpotPriceBot)
    (data : list (datetime * float)) (lines : list string) :
  format_lines rt self data = Ok lines ->
  (12 < List.length data)%nat
  /\ (exists point name,
        nth_error data 12 = Some point
        /\ nth_error (day_names self) (Z.to_nat (weekday (fst point)))
           = Some name)
  /\ Forall
       (fun p =>
          exists l,
            astimezone (local_offset rt) (timezone self) (fst p) = Ok l)
       data
  /\ List.length lines = (List.length data + 3)%nat.
Proof.
  unfold format_lines, format_header, list_index.
  change (Z.to_nat 12) with 12%nat. intros H.
  destruct (nth_error data 12) as [point|] eqn:H13; [|discriminate].
  simpl in H.
  destruct (nth_error (day_names self) (Z.to_nat (weekday (fst point))))
    as [name|] eqn:Hname; [|discriminate].
  simpl in H. rewrite format_loop_map_res in H.
  destruct (map_res (format_line rt self) data) as [ls|e] eqn:Hmap;
    [|discriminate].
  simpl in H. injection H as <-.
  split.
  { apply nth_error_Some. congruence. }
  split.
  { exists point, name. split; [reflexivity | exact Hname]. }
  split.
  - apply map_res_Forall2 in Hmap.
    clear - Hmap. induction Hmap as [|p line data ls Hp _ IH];
      constructor; [|exact IH].
    unfold format_line in Hp.
    destruct (astimezone (local_offset rt) (timezone self) (fst p)) as [l|];
      [exists l; reflexivity | discriminate].
  - apply map_res_length in Hmap. simpl. rewrite length_app, Hmap.
    simpl. lia.
Qed.

End FormatMore.

Lemma format_prices_short_series_witness :
  _format_prices Sample.rt (Sample.bot "FI")
    [(Datetime.mk 738900 11 0 0 0 (Some 0), 12.5%float)]
  = Raise IndexError.
Proof.
  apply (format_prices_short_series Sample.rt (Sample.bot "FI")).
  simpl. lia.
Defined.

Lemma format_prices_missing_day_name_witness :
  _format_prices Sample.rt Cases.bot_without_names Sample.series
  = Raise IndexError.
Proof.
  apply (format_prices_missing_day_name Sample.rt Cases.bot_without_names
           Sample.series (Datetime.mk 738900 10 0 0 0 (Some 0), 12.5%float)).
  - reflexivity.
  - simpl. lia.
Defined.

Lemma format_prices_needs_full_series_witness :
  (12 < List.length Sample.series)%nat.
Proof.
  destruct (format_prices_needs_full_series Sample.rt (Sample.bot "FI")
              Sample.series
              (match format_lines Sample.rt (Sample.bot "FI") Sample.series
               with Ok l => l | Raise _ => [] end))
    as [Hlen _].
  - reflexivity.
  - exact Hlen.
Defined.

(** ** _poll and poll_manually: every way a call can go *)

Lemma armed_app (a b : list event) : armed (a ++ b) = armed a ++ armed b.
Proof.
  induction a as [|ev a IH]; [reflexivity|].
  destruct ev; simpl; rewrite IH; reflexivity.
Qed.

Lemma count_gets_app (a b : list event) :
  count_gets (a ++ b) = (count_gets a + count_gets b)%nat.
Proof.
  induction a as [|ev a IH]; [reflexivity|].
  destruct ev; simpl; rewrite IH; reflexivity.
Qed.

Lemma sends_app (a b : list event) : sends (a ++ b) = sends a ++ sends b.
Proof.
  induction a as [|ev a IH]; [reflexivity|].
  destruct ev; simpl; rewrite IH; reflexivity.
Qed.

Lemma sends_of_sends (text : string) (l : list RoomID) :
  sends (map (fun room => SendMarkdown room text) l)
  = map (fun room => (room, text)) l.
Proof. induction l as [|room l IH]; simpl; congruence. Qed.

Lemma count_gets_sends (text : string) (l : list RoomID) :
  count_gets (map (fun room => SendMarkdown room text) l) = 0%nat.
Proof. induction l; simpl; auto. Qed.

Lemma replies_sends (text : string) (l : list RoomID) :
  replies (map (fun room => SendMarkdown room text) l) = [].
Proof. induction l; simpl; auto. Qed.

Section Calls.

Variable rt : runtime.

(** The deliveries reach a prefix of the rooms: all of them, or those up
    to the first one whose delivery raises. *)
Lemma for_each_send_prefix (w : world) (text : string) (l : list RoomID) :
  exists n,
    fst (for_each l (fun room_id => send w room_id text))
    = map (fun room => SendMarkdown room text) (firstn n l).
Proof.
  induction l as [|room l [n IH]].
  - exists 0%nat. reflexivity.
  - cbn [for_each]. unfold send at 1, bind, emit, lift.
    destruct (send_markdown w room text) as [[]|e].
    + exists (S n). cbn [firstn map].
      destruct (for_each l (fun room_id => send w room_id text)) as [t r].
      cbn [fst] in *. rewrite <- IH. reflexivity.
    + exists 1%nat. reflexivity.
Qed.

Lemma poll_unfold (self : SpotPriceBot) (w : world) (date : string)
    (attempts : Z) :
  attempts < 24 ->
  _poll rt self w date attempts
  = match fetch_outcome rt self (http_get w (fetch_query self date)) with
    | Raise e =>
      ([HttpGet (fetch_query self date); LogException RETRY_MSG e;
        RunLater (Seconds 300) date (attempts + 1)], Ok tt)
    | Ok data =>
      match _format_prices rt self data with
      | Raise e => ([HttpGet (fetch_query self date)], Raise e)
      | Ok text =>
        (HttpGet (fetch_query self date)
         :: fst (for_each (rooms self) (fun room_id => send w room_id text)),
         snd (for_each (rooms self) (fun room_id => send w room_id text)))
      end
    end.
Proof.
  intros Hlt. unfold _poll. destruct (Z.leb_spec 24 attempts); [lia|].
  rewrite fetch_prices_unfold. unfold attempt, bind, lift. cbn [fst snd].
  destruct (fetch_outcome rt self (http_get w (fetch_query self date)))
    as [data|e]; [|reflexivity].
  destruct (_format_prices rt self data) as [text|e]; [|reflexivity].
  destruct (for_each (rooms self) (fun room_id => send w room_id text)).
  reflexivity.
Qed.

Lemma poll_manually_unfold (self : SpotPriceBot) (w : world)
    (now : datetime) (arg : option string) (date : string) :
  (if falsy arg
   then rbind (next_announce_time now) (fun t => Ok (strftime_ymd t))
   else Ok (match arg with Some d => d | None => "" end)) = Ok date ->
  poll_manually rt self w now arg
  = match fetch_outcome rt self (http_get w (fetch_query self date)) with
    | Raise e =>
      ([HttpGet (fetch_query self date); LogException MANUAL_MSG e;
        Reply FAILED_REPLY], evt_reply w FAILED_REPLY)
    | Ok data =>
      match _format_prices rt self data with
      | Raise e => ([HttpGet (fetch_query self date)], Raise e)
      | Ok text => ([HttpGet (fetch_query self date); Reply text],
                    evt_reply w text)
      end
    end.
Proof.
  intros Hdate. unfold poll_manually.
  assert (Hd : (if falsy arg
                then bind (lift (next_announce_time now))
                       (fun t => ret (strftime_ymd t))
                else ret (match arg with Some d => d | None => "" end))
               = ([], Ok date)).
  { destruct (falsy arg).
    - unfold rbind in Hdate. unfold bind, lift, ret.
      destruct (next_announce_time now) as [t|e]; [|discriminate].
      injection Hdate as <-. reflexivity.
    - injection Hdate as <-. reflexivity. }
  rewrite Hd. unfold bind at 1. rewrite fetch_prices_unfold.
  unfold attempt, bind, lift. cbn [fst snd app].
  destruct (fetch_outcome rt self (http_get w (fetch_query self date)))
    as [data|e]; [|reflexivity].
  destruct (_format_prices rt self data) as [text|e]; reflexivity.
Qed.

(** X12: a series that cannot be formatted is not retried: below the cap,
    when the fetch returns a series and _format_prices raises, _poll ends
    with that exception right after the GET; nothing is delivered, nothing
    is logged and no timer is armed. *)
Theorem poll_unformattable_series_is_not_retried (self : SpotPriceBot)
    (w : world) (date : string) (attempts : Z)
    (data : list (datetime * float)) (e : exn) :
  attempts < 24 ->
  snd (fetch_prices rt self w date) = Ok data ->
  _format_prices rt self data = Raise e ->
  _poll rt self w date attempts = ([HttpGet (fetch_query self date)], Raise e).
Proof.
  intros Hlt Hfetch Hfmt. rewrite (poll_unfold self w date attempts Hlt).
  rewrite fetch_prices_unfold in Hfetch. cbn [snd] in Hfetch.
  rewrite Hfetch, Hfmt. reflexivity.
Qed.

(** X13: deliveries stop at the first room that fails: the rooms before
    it have received the report, that room has been tried, the rooms after
    it are never tried, the exception leaves _poll and no timer is armed. *)
Theorem poll_delivery_stops_at_first_failure (self : SpotPriceBot)
    (w : world) (date : string) (attempts : Z)
    (data : list (datetime * float)) (text : string)
    (before : list RoomID) (room : RoomID) (after : list RoomID) (e : exn) :
  attempts < 24 ->
  snd (fetch_prices rt self w date) = Ok data ->
  _format_prices rt self data = Ok text ->
  rooms self = before ++ room :: after ->
  (forall r, In r before -> send_markdown w r text = Ok tt) ->
  send_markdown w room text = Raise e ->
  _poll rt self w date attempts
  = (HttpGet (fetch_query self date)
     :: map (fun r => SendMarkdown r text) (before ++ [room]), Raise e).
Proof.
  intros Hlt Hfetch Hfmt Hrooms Hbefore Hroom.
  rewrite (poll_unfold self w date attempts Hlt).
  rewrite fetch_prices_unfold in Hfetch. cbn [snd] in Hfetch.
  rewrite Hfetch, Hfmt, Hrooms.
  assert (Hloop : for_each (before ++ room :: after)
                    (fun room_id => send w room_id text)
                  = (map (fun r => SendMarkdown r text) (before ++ [room]),
                     Raise e)).
  { clear - Hbefore Hroom. induction before as [|r before IH].
    - cbn [app for_each map]. unfold send at 1, bind, emit, lift.
      rewrite Hroom. reflexivity.
    - cbn [app for_each map]. unfold send at 1, bind, emit, lift.
      rewrite (Hbefore r) by (left; reflexivity).
      rewrite IH by (intros r' Hr'; apply Hbefore; right; exact Hr').
      reflexivity. }
  rewrite Hloop. reflexivity.
Qed.

(** X14: whatever the world answers, one call of _poll performs at most
    one GET and never replies; it either arms nothing, or arms exactly one
    timer, of 300 seconds, for the same date and the next attempt, and in
    that case it has delivered nothing. *)
Theorem poll_one_get_one_timer (self : SpotPriceBot) (w : world)
    (date : string) (attempts : Z) :
  (count_gets (fst (_poll rt self w date attempts)) <= 1)%nat
  /\ replies (fst (_poll rt self w date attempts)) = []
  /\ (armed (fst (_poll rt self w date attempts)) = []
      \/ (attempts < 24
          /\ armed (fst (_poll rt self w date attempts))
             = [mk_timer (Seconds 300) date (attempts + 1)]
          /\ sends (fst (_poll rt self w date attempts)) = [])).
Proof.
  destruct (Z.le_gt_cases 24 attempts) as [Hcap|Hlt].
  - rewrite poll_capped by exact Hcap. cbn. auto.
  - rewrite (poll_unfold self w date attempts Hlt).
    destruct (fetch_outcome rt self (http_get w (fetch_query self date)))
      as [data|e].
    + destruct (_format_prices rt self data) as [text|e].
      * destruct (for_each_send_prefix w text (rooms self)) as [n Hn].
        cbn [fst count_gets replies armed]. rewrite Hn.
        rewrite count_gets_sends, replies_sends, armed_sends. auto.
      * cbn. auto.
    + cbn. split; [lia|]. split; [reflexivity|]. right. auto.
Qed.

(** X15: with a date given, poll_manually does not depend on the clock:
    it fetches that very date, whatever the time of the call. *)
Theorem poll_manually_explicit_date (self : SpotPriceBot) (w : world)
    (now now' : datetime) (date : string) :
  date <> "" ->
  poll_manually rt self w now (Some date)
  = poll_manually rt self w now' (Some date)
  /\ exists t,
       fst (poll_manually rt self w now (Some date))
       = HttpGet (fetch_query self date) :: t.
Proof.
  intros Hne.
  assert (Hf : falsy (Some date) = false).
  { cbn [falsy]. apply String.eqb_neq. exact Hne. }
  assert (Hd : forall n,
             (if falsy (Some date)
              then rbind (next_announce_time n)
                     (fun t => Ok (strftime_ymd t))
              else Ok date) = Ok date).
  { intros n. rewrite Hf. reflexivity. }
  rewrite (poll_manually_unfold self w now (Some date) date (Hd now)).
  rewrite (poll_manually_unfold self w now' (Some date) date (Hd now')).
  split; [reflexivity|].
  destruct (fetch_outcome rt self (http_get w (fetch_query self date)))
    as [data|e]; [|eexists; reflexivity].
  destruct (_format_prices rt self data); eexists; reflexivity.
Qed.

(** X16: when the fetch returns a series that _format_prices refuses,
    poll_manually sends no reply at all, not even the failure message: the
    exception leaves the handler right after the GET. *)
Theorem poll_manually_unformattable_no_reply (self : SpotPriceBot)
    (w : world) (now : datetime) (date : string)
    (data : list (datetime * float)) (e : exn) :
  date <> "" ->
  snd (fetch_prices rt self w date) = Ok data ->
  _format_prices rt self data = Raise e ->
  poll_manually rt self w now (Some date)
  = ([HttpGet (fetch_query self date)], Raise e).
Proof.
  intros Hne Hfetch Hfmt.
  assert (Hf : falsy (Some date) = false).
  { cbn [falsy]. apply String.eqb_neq. exact Hne. }
  rewrite (poll_manually_unfold self w now (Some date) date)
    by (rewrite Hf; reflexivity).
  rewrite fetch_prices_unfold in Hfetch. cbn [snd] in Hfetch.
  rewrite Hfetch, Hfmt. reflexivity.
Qed.

(** X17: poll_manually is single shot: whatever the arguments and the
    world, it performs at most one GET, sends at most one reply, delivers
    to no room and arms no timer. *)
Theorem poll_manually_single_shot (self : SpotPriceBot) (w : world)
    (now : datetime) (arg : option string) :
  (count_gets (fst (poll_manually rt self w now arg)) <= 1)%nat
  /\ (List.length (replies (fst (poll_manually rt self w now arg))) <= 1)%nat
  /\ sends (fst (poll_manually rt self w now arg)) = []
  /\ armed (fst (poll_manually rt self w now arg)) = [].
Proof.
  destruct (if falsy arg
            then rbind (next_announce_time now)
                   (fun t => Ok (strftime_ymd t))
            else Ok (match arg with Some d => d | None => "" end))
    as [date|e] eqn:Hdate.
  - rewrite (poll_manually_unfold self w now arg date Hdate).
    destruct (fetch_outcome rt self (http_get w (fetch_query self date)))
      as [data|e]; [|cbn; auto].
    destruct (_format_prices rt self data); cbn; auto.
  - unfold poll_manually. destruct (falsy arg); [|discriminate].
    unfold rbind in Hdate.
    destruct (next_announce_time now) as [t|e']; [discriminate|].
    cbn. auto.
Qed.

End Calls.

Lemma poll_unformattable_series_is_not_retried_witness :
  _poll Sample.rt (Sample.bot "FI") (Sample.world_of Sample.single)
    "2024-01-15" 0
  = ([HttpGet (fetch_query (Sample.bot "FI") "2024-01-15")],
     Raise IndexError).
Proof.
  apply (poll_unformattable_series_is_not_retried Sample.rt (Sample.bot "FI")
           (Sample.world_of Sample.single) "2024-01-15" 0
           [(Datetime.mk 738900 11 0 0 0 (Some 0), 12.5%float)]).
  - lia.
  - reflexivity.
  - reflexivity.
Defined.

Lemma poll_delivery_stops_at_first_failure_witness :
  _poll Sample.rt
    (mk_bot "FI" "EUR" Sample.helsinki_winter
       ["!a:example.org"; "!b:example.org"; "!c:example.org"] Sample.week
       (1 + 0.25)%float "spotprice")
    Cases.second_room_down "2024-01-15" 0
  = ([HttpGet (fetch_query (Sample.bot "FI") "2024-01-15");
      SendMarkdown "!a:example.org" Sample.report;
      SendMarkdown "!b:example.org" Sample.report], Raise ClientError).
Proof.
  apply (poll_delivery_stops_at_first_failure Sample.rt
           (mk_bot "FI" "EUR" Sample.helsinki_winter
              ["!a:example.org"; "!b:example.org"; "!c:example.org"]
              Sample.week (1 + 0.25)%float "spotprice")
           Cases.second_room_down "2024-01-15" 0 Sample.series Sample.report
           ["!a:example.org"] "!b:example.org" ["!c:example.org"]).
  - lia.
  - reflexivity.
  - reflexivity.
  - reflexivity.
  - intros r [<-|[]]. reflexivity.
  - reflexivity.
Defined.

Lemma poll_manually_explicit_date_witness :
  poll_manually Sample.rt (Sample.bot "FI") (Sample.world_of Sample.no_data)
    morning (Some "2023-12-24")
  = poll_manually Sample.rt (Sample.bot "FI") (Sample.world_of Sample.no_data)
      evening (Some "2023-12-24").
Proof.
  apply (poll_manually_explicit_date Sample.rt (Sample.bot "FI")
           (Sample.world_of Sample.no_data) morning evening "2023-12-24").
  discriminate.
Defined.

Lemma poll_manually_unformattable_no_reply_witness :
  poll_manually Sample.rt (Sample.bot "FI") (Sample.world_of Sample.single)
    morning (Some "2024-01-15")
  = ([HttpGet (fetch_query (Sample.bot "FI") "2024-01-15")],
     Raise IndexError).
Proof.
  apply (poll_manually_unformattable_no_reply Sample.rt (Sample.bot "FI")
           (Sample.world_of Sample.single) morning "2024-01-15"
           [(Datetime.mk 738900 11 0 0 0 (Some 0), 12.5%float)]).
  - discriminate.
  - reflexivity.
  - reflexivity.
Defined.

(** ** The chain of timers of one date *)

Section Chain.

Variable rt : runtime.

Lemma poll_trace_cases (self : SpotPriceBot) (w : world) (date : string)
    (attempts : Z) :
  attempts < 24 ->
  (count_gets (fst (_poll rt self w date attempts)) <= 1)%nat
  /\ (armed (fst (_poll rt self w date attempts)) = []
      \/ armed (fst (_poll rt self w date attempts))
         = [mk_timer (Seconds 300) date (attempts + 1)]).
Proof.
  intros Hlt. rewrite (poll_unfold rt self w date attempts Hlt).
  destruct (fetch_outcome rt self (http_get w (fetch_query self date)))
    as [data|e]; [|cbn; auto].
  destruct (_format_prices rt self data) as [text|e]; [|cbn; auto].
  destruct (for_each_send_prefix w text (rooms self)) as [n Hn].
  cbn [fst count_gets armed]. rewrite Hn, count_gets_sends, armed_sends.
  auto.
Qed.

Lemma chain_bounded_from (self : SpotPriceBot) (ws : Z -> world)
    (date : string) :
  forall (n : nat) (fuel : nat) (d : delay),
    (n <= 24)%nat -> (n < fuel)%nat ->
    exists t,
      run_timers rt fuel self ws [mk_timer d date (24 - Z.of_nat n)] = (t, [])
      /\ (count_gets t <= n)%nat
      /\ Forall
           (fun tm =>
              timer_date tm = date /\ timer_delay tm = Seconds 300
              /\ 24 - Z.of_nat n < timer_attempts tm <= 24)
           (armed t).
Proof.
  induction n as [|n IH]; intros fuel d Hn Hfuel.
  - destruct fuel as [|fuel]; [lia|]. cbn [run_timers].
    rewrite poll_capped by lia. cbn [fst armed app].
    rewrite run_timers_idle. eexists. split; [reflexivity|].
    split; [cbn; lia | constructor].
  - destruct fuel as [|fuel]; [lia|].
    remember (24 - Z.of_nat (S n)) as a eqn:Ea.
    cbn [run_timers].
    destruct (poll_trace_cases self (ws a) date a) as [Hgets Harmed]; [lia|].
    set (t0 := fst (_poll rt self (ws a) date a)) in *.
    destruct Harmed as [Hnone|Hone].
    + rewrite Hnone. cbn [app]. rewrite run_timers_idle.
      exists (t0 ++ []). split; [reflexivity|].
      rewrite app_nil_r, Hnone. split; [lia | constructor].
    + rewrite Hone. cbn [app].
      replace (a + 1) with (24 - Z.of_nat n) by lia.
      destruct (IH fuel (Seconds 300)) as (t & Hrun & Hcount & Htimers);
        [lia | lia |].
      rewrite Hrun. exists (t0 ++ t). split; [reflexivity|].
      rewrite count_gets_app, armed_app, Hone. split; [lia|].
      cbn [app]. constructor.
      * cbn [timer_date timer_delay timer_attempts]. repeat split; lia.
      * revert Htimers. apply Forall_impl. intros tm (Hd & Hs & Ha).
        repeat split; auto; lia.
Qed.

(** X18: whatever the world answers at each attempt, the chain of timers
    that starts at attempt 0 comes to an end within 25 firings with no
    timer pending, after at most 24 GETs; every timer armed on the way is
    for the same date, 300 seconds ahead, with an attempt count from 1 to
    24. *)
Theorem retry_chain_bounded (self : SpotPriceBot) (ws : Z -> world)
    (date : string) (d : delay) (fuel : nat) :
  (25 <= fuel)%nat ->
  exists t,
    run_timers rt fuel self ws [mk_timer d date 0] = (t, [])
    /\ (count_gets t <= 24)%nat
    /\ Forall
         (fun tm =>
            timer_date tm = date /\ timer_delay tm = Seconds 300
            /\ 1 <= timer_attempts tm <= 24)
         (armed t).
Proof.
  intros Hfuel.
  destruct (chain_bounded_from self ws date 24 fuel d)
    as (t & Hrun & Hcount & Htimers); [lia | lia |].
  exists t. split; [exact Hrun|]. split; [exact Hcount|].
  revert Htimers. apply Forall_impl. intros tm (Hd & Hs & Ha).
  repeat split; auto; lia.
Qed.

Lemma poll_success_trace (self : SpotPriceBot) (w : world) (date : string)
    (attempts : Z) (data : list (datetime * float)) (text : string) :
  attempts < 24 ->
  snd (fetch_prices rt self w date) = Ok data ->
  _format_prices rt self data = Ok text ->
  (forall room, In room (rooms self) -> send_markdown w room text = Ok tt) ->
  fst (_poll rt self w date attempts)
  = HttpGet (fetch_query self date)
    :: map (fun room => SendMarkdown room text) (rooms self).
Proof.
  intros Hlt Hfetch Hfmt Hsend.
  rewrite (poll_unfold rt self w date attempts Hlt).
  rewrite fetch_prices_unfold in Hfetch. cbn [snd] in Hfetch.
  rewrite Hfetch, Hfmt, (for_each_send w text (rooms self) Hsend).
  reflexivity.
Qed.

Lemma chain_delivers_from (self : SpotPriceBot) (ws : Z -> world)
    (date : string) (k : Z) (data : list (datetime * float))
    (text : string) :
  k < 24 ->
  (forall a, 0 <= a < k ->
     exists e, snd (fetch_prices rt self (ws a) date) = Raise e) ->
  snd (fetch_prices rt self (ws k) date) = Ok data ->
  _format_prices rt self data = Ok text ->
  (forall room, In room (rooms self) ->
     send_markdown (ws k) room text = Ok tt) ->
  forall (n : nat) (fuel : nat) (d : delay),
    Z.of_nat n <= k -> (n < fuel)%nat ->
    exists t,
      run_timers rt fuel self ws [mk_timer d date (k - Z.of_nat n)] = (t, [])
      /\ count_gets t = S n
      /\ sends t = map (fun room => (room, text)) (rooms self)
      /\ List.length (armed t) = n.
Proof.
  intros Hk Hfail Hfetch Hfmt Hsend.
  induction n as [|n IH]; intros fuel d Hn Hfuel.
  - destruct fuel as [|fuel]; [lia|]. cbn [run_timers].
    replace (k - Z.of_nat 0) with k by lia.
    rewrite (poll_success_trace self (ws k) date k data text Hk Hfetch Hfmt
               Hsend).
    cbn [armed]. rewrite armed_sends. cbn [app].
    rewrite run_timers_idle. eexists. split; [reflexivity|].
    rewrite app_nil_r. cbn [count_gets sends armed].
    rewrite count_gets_sends, sends_of_sends, armed_sends. auto.
  - destruct fuel as [|fuel]; [lia|].
    remember (k - Z.of_nat (S n)) as a eqn:Ea.
    destruct (Hfail a) as [e He]; [lia|].
    destruct (IH fuel (Seconds 300)) as (t & Hrun & Hcount & Hsends & Harmed);
      [lia | lia |].
    cbn [run_timers].
    rewrite (poll_failure rt self (ws a) date a e) by (lia || exact He).
    cbn [fst armed app].
    replace (a + 1) with (k - Z.of_nat n) by lia.
    rewrite Hrun. eexists. split; [reflexivity|].
    cbn [count_gets sends armed List.length]. auto.
Qed.

(** X19: when the fetch fails at the first [k] attempts and succeeds at
    attempt [k], below the cap, the chain performs [k + 1] GETs, arms [k]
    timers, delivers the report to every room exactly once and ends there
    with no timer pending. *)
Theorem retry_chain_delivers_once (self : SpotPriceBot) (ws : Z -> world)
    (date : string) (d : delay) (k : Z) (data : list (datetime * float))
    (text : string) (fuel : nat) :
  0 <= k < 24 ->
  (forall a, 0 <= a < k ->
     exists e, snd (fetch_prices rt self (ws a) date) = Raise e) ->
  snd (fetch_prices rt self (ws k) date) = Ok data ->
  _format_prices rt self data = Ok text ->
  (forall room, In room (rooms self) ->
     send_markdown (ws k) room text = Ok tt) ->
  (Z.to_nat k < fuel)%nat ->
  exists t,
    run_timers rt fuel self ws [mk_timer d date 0] = (t, [])
    /\ count_gets t = S (Z.to_nat k)
    /\ sends t = map (fun room => (room, text)) (rooms self)
    /\ List.length (armed t) = Z.to_nat k.
Proof.
  intros [Hk0 Hk] Hfail Hfetch Hfmt Hsend Hfuel.
  destruct (chain_delivers_from self ws date k data text Hk Hfail Hfetch
              Hfmt Hsend (Z.to_nat k) fuel d)
    as (t & Hrun & Hrest); [lia | exact Hfuel |].
  exists t. split; [|exact Hrest].
  rewrite <- Hrun. f_equal. f_equal. f_equal. lia.
Qed.

End Chain.

Lemma retry_chain_bounded_witness :
  exists t,
    run_timers Sample.rt 25 (Sample.bot "FI") Cases.published_at_third
      [mk_timer (TotalSeconds 0) "2024-01-15" 0] = (t, [])
    /\ (count_gets t <= 24)%nat
    /\ Forall
         (fun tm =>
            timer_date tm = "2024-01-15" /\ timer_delay tm = Seconds 300
            /\ 1 <= timer_attempts tm <= 24)
         (armed t).
Proof.
  apply (retry_chain_bounded Sample.rt (Sample.bot "FI")
           Cases.published_at_third "2024-01-15" (TotalSeconds 0) 25).
  apply Nat.le_refl.
Defined.

Lemma retry_chain_delivers_once_witness :
  exists t,
    run_timers Sample.rt 3 (Sample.bot "FI") Cases.published_at_third
      [mk_timer (TotalSeconds 0) "2024-01-15" 0] = (t, [])
    /\ count_gets t = 3%nat
    /\ sends t
       = [("!a:example.org", Sample.report); ("!b:example.org", Sample.report)]
    /\ List.length (armed t) = 2%nat.
Proof.
  apply (retry_chain_delivers_once Sample.rt (Sample.bot "FI")
           Cases.published_at_third "2024-01-15" (TotalSeconds 0) 2
           Sample.series Sample.report 3).
  - lia.
  - intros a Ha. exists NoDataError.
    assert (Hcases : a = 0 \/ a = 1) by lia.
    destruct Hcases as [-> | ->]; reflexivity.
  - reflexivity.
  - reflexivity.
  - intros room _. reflexivity.
  - simpl. lia.
Defined.

(** ** The date asked for, on schedule and on demand *)

(** X20: read at the same instant, the scheduled poll and the command
    without a date do not ask for the same day: the command fetches the
    date of the announce time itself, the timer armed by _schedule_poll
    fetches the day after it. *)
Theorem manual_default_is_day_before_scheduled (rt : runtime)
    (self : SpotPriceBot) (w : world) (now : datetime) :
  valid now -> ordinal now + 2 <= MAXORDINAL ->
  exists announce_time next t d,
    next_announce_time now = Ok announce_time
    /\ fst (poll_manually rt self w now None)
       = HttpGet (fetch_query self (strftime_ymd announce_time)) :: t
    /\ armed (fst (_schedule_poll now now))
       = [mk_timer d (strftime_ymd next) 0]
    /\ ordinal next = ordinal announce_time + 1.
Proof.
  intros Hv Hmax.
  assert (Hnext := next_announce_time_cases now Hv ltac:(lia)).
  destruct Hv as [Hord Hv].
  set (a := if ANNOUNCE_US <? time_us now
            then tomorrow_at_1245 now else today_at_1245 now) in *.
  assert (Ha : ordinal now <= ordinal a <= ordinal now + 1).
  { unfold a. destruct (ANNOUNCE_US <? time_us now);
      cbn [tomorrow_at_1245 today_at_1245 ordinal]; lia. }
  assert (Hadd : add_days a 1
                 = Ok (Datetime.mk (ordinal a + 1) (hour a) (minute a)
                         (second a) (microsecond a) (utcoffset a))).
  { unfold add_days.
    replace ((1 <=? ordinal a + 1) && (ordinal a + 1 <=? MAXORDINAL))
      with true; [reflexivity|].
    symmetry. apply andb_true_iff. split; apply Z.leb_le; lia. }
  assert (Hdate : (if falsy None
                   then rbind (next_announce_time now)
                          (fun t => Ok (strftime_ymd t))
                   else Ok "") = Ok (strftime_ymd a)).
  { cbn [falsy]. rewrite Hnext. reflexivity. }
  exists a. eexists.
  assert (Hman : exists t,
             fst (poll_manually rt self w now None)
             = HttpGet (fetch_query self (strftime_ymd a)) :: t).
  { rewrite (poll_manually_unfold rt self w now None _ Hdate).
    destruct (fetch_outcome rt self
                (http_get w (fetch_query self (strftime_ymd a))))
      as [data|e]; [|eexists; reflexivity].
    destruct (_format_prices rt self data); eexists; reflexivity. }
  destruct Hman as [t Hman]. exists t. eexists.
  split; [exact Hnext|]. split; [exact Hman|]. split.
  - rewrite (schedule_poll_arms_once now now a _ Hnext Hadd). reflexivity.
  - reflexivity.
Qed.

Lemma manual_default_is_day_before_scheduled_witness :
  exists announce_time next t d,
    next_announce_time Sample.noon = Ok announce_time
    /\ fst (poll_manually Sample.rt (Sample.bot "FI")
              (Sample.world_of Sample.no_data) Sample.noon None)
       = HttpGet (fetch_query (Sample.bot "FI") (strftime_ymd announce_time))
         :: t
    /\ armed (fst (_schedule_poll Sample.noon Sample.noon))
       = [mk_timer d (strftime_ymd next) 0]
    /\ ordinal next = ordinal announce_time + 1.
Proof.
  apply (manual_default_is_day_before_scheduled Sample.rt (Sample.bot "FI")
           (Sample.world_of Sample.no_data) Sample.noon);
    vm_compute; intuition congruence.
Defined.
